(** * iti-events-server: authentication and attendee flows

    A shallow embedding of the auth controller ([login], [loginMobile],
    [register], [refresh], [verify], [resetPassword]) and of the attendee
    service ([getAllAttendees], [getAttendeeById],
    [updateAttendeeApprovalStatus], [deleteAttendeeById]), together with the
    properties the specification states about them.

    Conventions.
    - A handler [(req, res, next) => ...] becomes a function from the request
      and the database to a [Reply] and the database afterwards.
    - A promise is a value of [Promise]: resolved or rejected.  The pattern
      [const [error, value] = await asyncWrapper(p)] followed by
      [if (error) ...] is a match on the promise.
    - Collections are the in-memory content of the MongoDB collections; the
      reads and writes on them always resolve.  Collaborators whose code is
      not part of the controller (the User model's [create], the email
      service, bcrypt) are variables of the section. *)

From Stdlib Require Import ZArith String List Bool Lia.
From stdpp Require Import base option list gmap strings fin_maps.

Local Open Scope string_scope.

(** ** JavaScript values of a parsed JSON body *)

Module JS.

(** A field of [req.body] after [express.json()]: null, a boolean, a
    number, a string (one character per code unit) or an array.  A key that
    is not in the body reads as [undefined], here [None]. *)
#[local] Unset Elimination Schemes.
Inductive JSVal :=
| JNull
| JBool (b : bool)
| JNum (n : Z)
| JStr (s : string)
| JArr (elems : list JSVal).
#[local] Set Elimination Schemes.

Inductive JSError :=
| TypeError (message : string).

(** The completion of an expression: a value or a thrown error. *)
Inductive Completion (A : Type) :=
| Normal (a : A)
| Throw (e : JSError).
Arguments Normal {A} a.
Arguments Throw {A} e.

Definition nonempty (s : string) : bool :=
  match s with
  | EmptyString => false
  | String _ _ => true
  end.

(** [!!v] *)
Definition truthy (v : option JSVal) : bool :=
  match v with
  | None => false
  | Some JNull => false
  | Some (JBool b) => b
  | Some (JNum n) => negb (n =? 0)%Z
  | Some (JStr s) => nonempty s
  | Some (JArr _) => true
  end.

(** [!!s] for a value that is a string or absent. *)
Definition truthy_str (s : option string) : bool :=
  match s with
  | None => false
  | Some s => nonempty s
  end.

(** [v.length]: reading a property of [undefined] or [null] throws; a
    string or an array has a length; a boolean or a number has none and the
    read gives [undefined]. *)
Definition get_length (v : option JSVal) : Completion (option Z) :=
  match v with
  | None => Throw (TypeError "Cannot read properties of undefined (reading 'length')")
  | Some JNull => Throw (TypeError "Cannot read properties of null (reading 'length')")
  | Some (JBool _) => Normal None
  | Some (JNum _) => Normal None
  | Some (JStr s) => Normal (Some (Z.of_nat (String.length s)))
  | Some (JArr elems) => Normal (Some (Z.of_nat (List.length elems)))
  end.

(** [x < n] and [x > n] for [x] a number or [undefined]: a comparison with
    [undefined] is false. *)
Definition lt (x : option Z) (n : Z) : bool :=
  match x with
  | Some a => (a <? n)%Z
  | None => false
  end.

Definition gt (x : option Z) (n : Z) : bool :=
  match x with
  | Some a => (a >? n)%Z
  | None => false
  end.

End JS.
Import JS.

Abbreviation Body := (gmap string JSVal).

(** ** Errors, promises and replies *)

(** What a rejected promise carries: a Mongoose validation error with the
    [kind] of each failed path, an error with a numeric [code] (11000 is
    MongoDB's duplicate key), or any other error. *)
Inductive Exn :=
| ValidationError (errors : list (string * string))
| CodedError (code : Z) (message : string)
| PlainError (message : string).

Inductive Promise (A : Type) :=
| Resolved (a : A)
| Rejected (e : Exn).
Arguments Resolved {A} a.
Arguments Rejected {A} e.

(** The argument of [next(...)]. *)
Inductive NextArg :=
| AppError (message : string) (statusCode : Z)
| DataValidationError (error : Exn) (statusCode : Z)
| NotFoundError (message : string)
| Forwarded (e : Exn).

(** Modelled from the spec: the error classes (errors/AppError,
    errors/DataValidationError, errors/NotFoundError) are not under src/.
    The spec's taxonomy gives PersistenceFailure 500 for an [AppError] built
    without a status, 422 for a validation failure that is not a missing
    required field, and 404 for NotFound. *)
Definition AppError_default : Z := 500.
Definition DataValidationError_default : Z := 422.
Definition NotFoundError_status : Z := 404.

Definition statusOf (e : NextArg) : option Z :=
  match e with
  | AppError _ s => Some s
  | DataValidationError _ s => Some s
  | NotFoundError _ => Some NotFoundError_status
  | Forwarded _ => None
  end.

(** ** Tokens (services/authService) *)

(** A signed JSON web token, symbolically: the payload's [id], the secret it
    was signed with and its expiry ([exp], seconds since the epoch). *)
Record Jwt := mkJwt {
  payload_id : string;
  signedWith : string;
  jwt_exp : Z
}.

(** A string presented as a token: the compact form of a [Jwt], or any other
    string. *)
Inductive TokenString :=
| Compact (t : Jwt)
| Opaque (raw : string).

Definition truthy_token (t : option TokenString) : bool :=
  match t with
  | None => false
  | Some (Compact _) => true
  | Some (Opaque raw) => nonempty raw
  end.

(** [process.env]: the two secrets and the two lifetimes (seconds). *)
Record Config := mkConfig {
  JWT_ACCESS_SECRET : string;
  JWT_REFRESH_SECRET : string;
  JWT_ACCESS_EXPIRATION : Z;
  JWT_REFRESH_EXPIRATION : Z
}.

(** [jwt.sign(payload, secret, { expiresIn })] at the instant [now]
    (milliseconds since the epoch). *)
Definition jwt_sign (now : Z) (id secret : string) (expiresIn : Z) : TokenString :=
  Compact {| payload_id := id; signedWith := secret; jwt_exp := (now / 1000 + expiresIn)%Z |}.

(** [jwt.verify(token, secret, callback)] wrapped in a promise: the decoded
    payload, or an error for a string that is no token, a signature that does
    not match [secret], or an expired token. *)
Definition jwt_verify (now : Z) (token : TokenString) (secret : string) : Promise Jwt :=
  match token with
  | Opaque _ => Rejected (PlainError "jwt malformed")
  | Compact t =>
      if negb (String.eqb (signedWith t) secret) then Rejected (PlainError "invalid signature")
      else if (jwt_exp t <=? now / 1000)%Z then Rejected (PlainError "jwt expired")
      else Resolved t
  end.

(** ** Data model *)

Inductive UserRole :=
| Guest
| Admin
| OtherRole (name : string).

Definition is_Guest (r : UserRole) : bool :=
  match r with
  | Guest => true
  | _ => false
  end.

Record User := mkUser {
  _id : string;
  email : string;
  password : string;
  role : UserRole;
  emailVerified : bool;
  isActive : bool
}.

Record UserToken := mkUserToken {
  ut_userId : string;
  ut_token : string
}.

(** An event: the activity flag and the end date (milliseconds since the
    epoch), which a document may lack. *)
Record Event := mkEvent {
  ev_isActive : bool;
  endDate : option Z
}.

(** An attendee document holds reference ids; [isApproved] is absent while
    the attendee is pending. *)
Record EventAttendee := mkEventAttendee {
  att_id : string;
  userId : string;
  eventId : string;
  isApproved : option bool
}.

(** What a query on attendees returns: the document and, for each populated
    path, the referenced document ([Some None] when the reference
    dangles).  [None] is a path that was not populated. *)
Record AttendeeView := mkView {
  doc : EventAttendee;
  user : option (option User);
  event : option (option Event)
}.

(** The database: users by [_id], token documents and attendee documents in
    insertion order, events by [_id]. *)
Record DB := mkDB {
  users : gmap string User;
  userTokens : list UserToken;
  attendees : list EventAttendee;
  events : gmap string Event
}.

Definition set_users (f : gmap string User → gmap string User) (db : DB) : DB :=
  {| users := f (users db); userTokens := userTokens db;
     attendees := attendees db; events := events db |}.

Definition set_userTokens (f : list UserToken → list UserToken) (db : DB) : DB :=
  {| users := users db; userTokens := f (userTokens db);
     attendees := attendees db; events := events db |}.

Definition set_attendees (f : list EventAttendee → list EventAttendee) (db : DB) : DB :=
  {| users := users db; userTokens := userTokens db;
     attendees := f (attendees db); events := events db |}.

(** ** Collections (the Mongoose queries the controllers issue) *)

(** [User.findOne({ email })]: a user document with that email, if any. *)
Definition User_findOne (e : string) (db : DB) : Promise (option User) :=
  Resolved (snd <$> List.find (λ kv, String.eqb (email (snd kv)) e) (map_to_list (users db))).

(** [User.findById(id).exec()] *)
Definition User_findById (id : string) (db : DB) : Promise (option User) :=
  Resolved (users db !! id).

(** [User.findByIdAndUpdate(id, update, { new })]: applies [update] to the
    document with that [_id] and resolves to the document as it was found,
    or as it is after the update with [{ new: true }]; to [null] when there
    is none (nothing is inserted). *)
Definition User_findByIdAndUpdate (id : string) (update : User → User) (new : bool) (db : DB)
  : Promise (option User) * DB :=
  let found := users db !! id in
  (Resolved (if new then update <$> found else found), set_users (alter update id) db).

(** [User.deleteOne({ _id })] *)
Definition User_deleteOne (id : string) (db : DB) : DB :=
  set_users (delete id) db.

Definition token_matches (id tok : string) (t : UserToken) : bool :=
  String.eqb (ut_userId t) id && String.eqb (ut_token t) tok.

(** [UserToken.findOne({ userId: id, token })] *)
Definition UserToken_findOne (id tok : string) (db : DB) : Promise (option UserToken) :=
  Resolved (List.find (token_matches id tok) (userTokens db)).

(** Removes the first document that satisfies [p]. *)
Fixpoint remove_first {A} (p : A → bool) (l : list A) : list A :=
  match l with
  | [] => []
  | x :: l' => if p x then l' else x :: remove_first p l'
  end.

(** [UserToken.deleteOne({ userId: id, token })] *)
Definition UserToken_deleteOne (id tok : string) (db : DB) : DB :=
  set_userTokens (remove_first (token_matches id tok)) db.

(** Modelled from the spec: the EventAttendee model (models/EventAttendee)
    is not under src/.  The spec has it as a join record that links a User to
    an Event by reference id; [populate] of the path [user] (resp. [event])
    replaces the reference by the user (resp. event) document it names, or by
    [null] when there is none. *)
Definition unpopulated (a : EventAttendee) : AttendeeView :=
  {| doc := a; user := None; event := None |}.

Definition populate_user (db : DB) (v : AttendeeView) : AttendeeView :=
  {| doc := doc v; user := Some (users db !! userId (doc v)); event := event v |}.

Definition populate_event (db : DB) (v : AttendeeView) : AttendeeView :=
  {| doc := doc v; user := user v; event := Some (events db !! eventId (doc v)) |}.

(** [EventAttendee.find(filter)] *)
Definition EventAttendee_find (p : EventAttendee → bool) (db : DB) : list AttendeeView :=
  unpopulated <$> List.filter p (attendees db).

(** [EventAttendee.find({ userId }).populate("event")] *)
Definition EventAttendee_find_populate_event (id : string) (db : DB)
  : Promise (list AttendeeView) :=
  Resolved (populate_event db <$> EventAttendee_find (λ a, String.eqb (userId a) id) db).

(** [EventAttendee.findById(id)] *)
Definition EventAttendee_findById (id : string) (db : DB) : option AttendeeView :=
  unpopulated <$> List.find (λ a, String.eqb (att_id a) id) (attendees db).

(** Applies [f] to the first document that satisfies [p]. *)
Fixpoint update_first {A} (p : A → bool) (f : A → A) (l : list A) : list A :=
  match l with
  | [] => []
  | x :: l' => if p x then f x :: l' else x :: update_first p f l'
  end.

(** [EventAttendee.findByIdAndUpdate(id, update, { new: true })]: resolves
    to the document after the update. *)
Definition EventAttendee_findByIdAndUpdate (id : string) (update : EventAttendee → EventAttendee)
    (db : DB) : option AttendeeView * DB :=
  let hit := λ a, String.eqb (att_id a) id in
  let db' := set_attendees (update_first hit update) db in
  (unpopulated <$> (update <$> List.find hit (attendees db)), db').

(** [EventAttendee.findByIdAndDelete(id)]: resolves to the document that was
    removed. *)
Definition EventAttendee_findByIdAndDelete (id : string) (db : DB) : option AttendeeView * DB :=
  let hit := λ a, String.eqb (att_id a) id in
  (unpopulated <$> List.find hit (attendees db), set_attendees (remove_first hit) db).

(** ** Replies *)

Inductive RVal :=
| RTok (t : TokenString)
| RStr (s : string)
| RUser (u : User).

(** How a handler ends: [next(err)], [res.status(s).json(body)] (status 200
    when [res.json] is called alone), or an exception that escapes the
    handler, in which case neither [res] nor [next] is called. *)
Inductive Reply :=
| Next (err : NextArg)
| Json (status : Z) (body : list (string * RVal))
| Uncaught (e : JSError).

(** The value of a key of a JSON reply. *)
Fixpoint field (k : string) (body : list (string * RVal)) : option RVal :=
  match body with
  | [] => None
  | (k', v) :: body' => if String.eqb k' k then Some v else field k body'
  end.

(** ** The attendee service *)

Module AttendeeService.

(** [isApproved !== undefined ? { isApproved } : {}] *)
Definition approval_filter (isApproved_arg : option bool) (a : EventAttendee) : bool :=
  match isApproved_arg with
  | Some b => match isApproved a with
              | Some b' => Bool.eqb b' b
              | None => false
              end
  | None => true
  end.

Definition getAllAttendees (isApproved_arg : option bool) (db : DB) : list AttendeeView :=
  populate_event db <$> (populate_user db <$> EventAttendee_find (approval_filter isApproved_arg) db).

Definition getAttendeeById (id : string) (db : DB) : option AttendeeView :=
  populate_event db <$> (populate_user db <$> EventAttendee_findById id db).

Definition set_isApproved (b : bool) (a : EventAttendee) : EventAttendee :=
  {| att_id := att_id a; userId := userId a; eventId := eventId a; isApproved := Some b |}.

Definition updateAttendeeApprovalStatus (attendeeId : string) (isApproved_arg : bool) (db : DB)
  : option AttendeeView * DB :=
  let '(attendee, db') :=
    EventAttendee_findByIdAndUpdate attendeeId (set_isApproved isApproved_arg) db in
  (populate_event db' <$> (populate_user db' <$> attendee), db').

Definition deleteAttendeeById (attendeeId : string) (db : DB) : option AttendeeView * DB :=
  EventAttendee_findByIdAndDelete attendeeId db.

(** The joined view: both paths carry the referenced documents. *)
Definition joined (db : DB) (v : AttendeeView) : Prop :=
  user v = Some (users db !! userId (doc v)) ∧ event v = Some (events db !! eventId (doc v)).

(** The bare document: reference ids only. *)
Definition bare (v : AttendeeView) : Prop :=
  user v = None ∧ event v = None.

End AttendeeService.

(** ** The auth controller *)

Record Credentials := mkCredentials {
  cr_email : option string;
  cr_password : option string
}.

Record VerifyQuery := mkVerifyQuery {
  vq_token : option string;
  vq_id : option string
}.

Record ResetBody := mkResetBody {
  rb_id : option string;
  rb_token : option string;
  rb_newPassword : option string
}.

Definition set_emailVerified (b : bool) (u : User) : User :=
  {| _id := _id u; email := email u; password := password u; role := role u;
     emailVerified := b; isActive := isActive u |}.

Definition set_password (p : string) (u : User) : User :=
  {| _id := _id u; email := email u; password := p; role := role u;
     emailVerified := emailVerified u; isActive := isActive u |}.

Definition db_error : NextArg := AppError "Database error. Please try again later." AppError_default.

(** [delete userData.isActive; delete userData.role] *)
Definition strip_overrides (body : Body) : Body :=
  delete "role" (delete "isActive" body).

(** [userData.password.length < 8 || userData.password.length > 25] *)
Definition password_out_of_range (userData : Body) : Completion bool :=
  match get_length (userData !! "password") with
  | Throw e => Throw e
  | Normal len => Normal (JS.lt len 8 || JS.gt len 25)
  end.

Section AuthController.

(** [process.env] *)
Variable cfg : Config.

(** [bcrypt.compare(data, encrypted)] and [bcrypt.hash(data, rounds)]. *)
Variable bcrypt_compare : string → string → bool.
Variable bcrypt_hash : string → string.

(** [User.create(doc)]: validation, defaults and the insert are the User
    model's; the promise resolves to the new document or rejects. *)
Variable User_create : Body → DB → Promise User * DB.

(** [sendVerifyEmail(id, email)] of the email service: it may write to the
    database (the token it mails) and it may reject. *)
Variable sendVerifyEmail : string → string → DB → Promise unit * DB.

Definition generateAccessToken (now : Z) (u : User) : TokenString :=
  jwt_sign now (_id u) (JWT_ACCESS_SECRET cfg) (JWT_ACCESS_EXPIRATION cfg).

Definition generateRefreshToken (now : Z) (u : User) : TokenString :=
  jwt_sign now (_id u) (JWT_REFRESH_SECRET cfg) (JWT_REFRESH_EXPIRATION cfg).

Definition token_pair (now : Z) (u : User) : list (string * RVal) :=
  [("accessToken", RTok (generateAccessToken now u));
   ("refreshToken", RTok (generateRefreshToken now u))].

Definition login (now : Z) (req : Credentials) (db : DB) : Reply * DB :=
  if negb (truthy_str (cr_email req)) || negb (truthy_str (cr_password req)) then
    (Next (AppError "Must provide username and password for login." 400), db)
  else
    let email_arg := default "" (cr_email req) in
    let password_arg := default "" (cr_password req) in
    match User_findOne email_arg db with
    | Rejected _ => (Next db_error, db)
    | Resolved None => (Next (AppError "Invalid email or password." 401), db)
    | Resolved (Some u) =>
        if negb (emailVerified u) then
          (Next (AppError "Must verify email before logging in." 403), db)
        else if negb (bcrypt_compare password_arg (password u)) then
          (Next (AppError "Invalid email or password." 401), db)
        else (Json 200 (token_pair now u), db)
    end.

(** [attendee?.event?.isActive && new Date(attendee?.event?.endDate) >= today] *)
Definition valid_event (today : Z) (attendee : AttendeeView) : bool :=
  match event attendee with
  | Some (Some ev) =>
      ev_isActive ev && match endDate ev with
                        | Some d => (d >=? today)%Z
                        | None => false
                        end
  | _ => false
  end.

Definition loginMobile (now : Z) (req : Credentials) (db : DB) : Reply * DB :=
  if negb (truthy_str (cr_email req)) || negb (truthy_str (cr_password req)) then
    (Next (AppError "Must provide username and password for login." 400), db)
  else
    let email_arg := default "" (cr_email req) in
    let password_arg := default "" (cr_password req) in
    match User_findOne email_arg db with
    | Rejected _ => (Next db_error, db)
    | Resolved None => (Next (AppError "Invalid email or password." 401), db)
    | Resolved (Some u) =>
        if negb (emailVerified u) then
          (Next (AppError "Must verify email before logging in." 403), db)
        else if negb (bcrypt_compare password_arg (password u)) then
          (Next (AppError "Invalid email or password." 401), db)
        else
          let issue := (Json 200 (token_pair now u), db) in
          if is_Guest (role u) then
            match EventAttendee_find_populate_event (_id u) db with
            | Rejected _ => (Next db_error, db)
            | Resolved eventAttendees =>
                let today := now in
                let hasValidEvent := existsb (valid_event today) eventAttendees in
                if negb hasValidEvent then
                  (Next (AppError "User must have an active event with a valid end date to log in." 403), db)
                else issue
            end
          else issue
    end.

(** [Object.values(error.errors).find((err) => err.kind === "required")] *)
Definition requiredError (errors : list (string * string)) : option (string * string) :=
  List.find (λ err, String.eqb (snd err) "required") errors.

Definition register (now : Z) (body : Body) (db : DB) : Reply * DB :=
  let userData := strip_overrides body in
  match password_out_of_range userData with
  | Throw e => (Uncaught e, db)
  | Normal out_of_range =>
      if out_of_range then
        (Next (AppError "Password must be between 8 and 25 characters long." 422), db)
      else
        match User_create userData db with
        | (Rejected error, db1) =>
            match error with
            | ValidationError errors =>
                match requiredError errors with
                | Some _ => (Next (DataValidationError error 400), db1)
                | None => (Next (DataValidationError error DataValidationError_default), db1)
                end
            | CodedError code _ =>
                if (code =? 11000)%Z then
                  (Next (AppError "Email already exists. Please use a different email." 409), db1)
                else (Next db_error, db1)
            | PlainError _ => (Next db_error, db1)
            end
        | (Resolved newUser, db1) =>
            let accessToken := generateAccessToken now newUser in
            let refreshToken := generateRefreshToken now newUser in
            match sendVerifyEmail (_id newUser) (email newUser) db1 with
            | (Rejected emailError, db2) =>
                (Next (Forwarded emailError), User_deleteOne (_id newUser) db2)
            | (Resolved _, db2) =>
                (Json 201 [("user", RUser newUser);
                           ("accessToken", RTok accessToken);
                           ("refreshToken", RTok refreshToken)], db2)
            end
        end
  end.

Definition refresh (now : Z) (refreshToken : option TokenString) (db : DB) : Reply * DB :=
  match refreshToken with
  | Some token =>
      if negb (truthy_token refreshToken) then
        (Next (AppError "Refresh token required." 400), db)
      else
        match jwt_verify now token (JWT_REFRESH_SECRET cfg) with
        | Rejected _ => (Next (AppError "Invalid or expired refresh token." 403), db)
        | Resolved decoded =>
            match User_findById (payload_id decoded) db with
            | Rejected _ => (Next db_error, db)
            | Resolved None => (Next (AppError "User not found." 404), db)
            | Resolved (Some u) => (Json 200 [("accessToken", RTok (generateAccessToken now u))], db)
            end
        end
  | None => (Next (AppError "Refresh token required." 400), db)
  end.

Definition verify (req : VerifyQuery) (db : DB) : Reply * DB :=
  if negb (truthy_str (vq_token req)) || negb (truthy_str (vq_id req)) then
    (Next (AppError "Invalid verification link." 400), db)
  else
    let token := default "" (vq_token req) in
    let id := default "" (vq_id req) in
    match UserToken_findOne id token db with
    | Rejected _ => (Next db_error, db)
    | Resolved None => (Next (AppError "Invalid or expired verification link." 400), db)
    | Resolved (Some _) =>
        match User_findByIdAndUpdate id (set_emailVerified true) false db with
        | (Rejected _, db1) => (Next (AppError "Database error. Please try again later." 500), db1)
        | (Resolved None, db1) => (Next (NotFoundError "User not found."), db1)
        | (Resolved (Some _), db1) => (Json 200 [("message", RStr "Email verified successfully.")], db1)
        end
    end.

(** Modelled from the spec: the User model (models/User) is not under
    src/.  The spec's data model gives a User a hashed password, replaced
    by a reset action: a password written through the model is stored as
    its bcrypt hash. *)
Definition User_writePassword (newPassword : string) (u : User) : User :=
  set_password (bcrypt_hash newPassword) u.

Definition resetPassword (req : ResetBody) (db : DB) : Reply * DB :=
  if negb (truthy_str (rb_id req)) || negb (truthy_str (rb_token req))
     || negb (truthy_str (rb_newPassword req)) then
    (Next (AppError
             "Invalid request. Please provide id, token, and newPassword in the request body."
             400), db)
  else
    let id := default "" (rb_id req) in
    let token := default "" (rb_token req) in
    let newPassword := default "" (rb_newPassword req) in
    let len := Z.of_nat (String.length newPassword) in
    if (len <? 8)%Z || (len >? 25)%Z then
      (Next (AppError "Password must be between 8 and 25 characters long." 422), db)
    else
      match UserToken_findOne id token db with
      | Rejected _ => (Next db_error, db)
      | Resolved None => (Next (AppError "Invalid or expired token." 400), db)
      | Resolved (Some _) =>
          match User_findByIdAndUpdate id (User_writePassword newPassword) true db with
          | (Rejected _, db1) => (Next db_error, db1)
          | (Resolved None, db1) => (Next (NotFoundError "User not found."), db1)
          | (Resolved (Some _), db1) =>
              (Json 200 [("message", RStr "Password reset successfully.")],
               UserToken_deleteOne id token db1)
          end
      end.

End AuthController.

(** ** Invariants of the collections *)

(** Token documents are keyed by (userId, token). *)
Definition token_key (t : UserToken) : string * string := (ut_userId t, ut_token t).

Definition tokens_keyed (db : DB) : Prop :=
  NoDup (token_key <$> userTokens db).

(** The unique index on [email]. *)
Definition unique_emails (db : DB) : Prop :=
  NoDup ((λ kv : string * User, email (snd kv)) <$> map_to_list (users db)).

(** Distinct users have distinct emails. *)
Definition emails_distinct (m : gmap string User) : Prop :=
  ∀ i j u v, m !! i = Some u → m !! j = Some v → email u = email v → i = j.

(** A guest may log in from the mobile client when one of their attendee
    documents links an event that is active and ends at [today] or later. *)
Definition has_valid_event (today : Z) (u : User) (db : DB) : Prop :=
  ∃ a ev d, a ∈ attendees db ∧ userId a = _id u ∧ events db !! eventId a = Some ev
            ∧ ev_isActive ev = true ∧ endDate ev = Some d ∧ (today ≤ d)%Z.

(** ** A small deployment, for running the handlers *)

Module Fixture.

Definition cfg : Config :=
  {| JWT_ACCESS_SECRET := "access-secret"; JWT_REFRESH_SECRET := "refresh-secret";
     JWT_ACCESS_EXPIRATION := 900; JWT_REFRESH_EXPIRATION := 604800 |}.

Definition bcrypt_hash (data : string) : string := "$2b$10$" ++ data.

Definition bcrypt_compare (data encrypted : string) : bool :=
  String.eqb encrypted (bcrypt_hash data).

(** A User model that requires [email] and [password], hashes the
    password and inserts the document under a fixed fresh id. *)
Definition User_create (doc : Body) (db : DB) : Promise User * DB :=
  match doc !! "email", doc !! "password" with
  | Some (JStr e), Some (JStr p) =>
      let u := {| _id := "u9"; email := e; password := bcrypt_hash p; role := Guest;
                  emailVerified := false; isActive := true |} in
      (Resolved u, set_users (insert "u9" u) db)
  | _, _ => (Rejected (ValidationError [("email", "required")]), db)
  end.

(** An email service whose provider is down: the token is stored, the
    delivery fails. *)
Definition sendVerifyEmail (id to : string) (db : DB) : Promise unit * DB :=
  (Rejected (PlainError "connect ECONNREFUSED"),
   set_userTokens (λ l, (l ++ [{| ut_userId := id; ut_token := "t9" |}])%list) db).

Definition alice : User :=
  {| _id := "u1"; email := "alice@iti.eg"; password := bcrypt_hash "old-secret-1"; role := Guest;
     emailVerified := true; isActive := true |}.

Definition bob : User :=
  {| _id := "u2"; email := "bob@iti.eg"; password := bcrypt_hash "old-secret-2"; role := Guest;
     emailVerified := false; isActive := true |}.

Definition carol : User :=
  {| _id := "u3"; email := "carol@iti.eg"; password := bcrypt_hash "old-secret-3"; role := Admin;
     emailVerified := true; isActive := true |}.

(** A verified guest whose only event is inactive. *)
Definition erin : User :=
  {| _id := "u4"; email := "erin@iti.eg"; password := bcrypt_hash "old-secret-4"; role := Guest;
     emailVerified := true; isActive := true |}.

Definition a1 : EventAttendee :=
  {| att_id := "a1"; userId := "u1"; eventId := "e1"; isApproved := Some true |}.

Definition a2 : EventAttendee :=
  {| att_id := "a2"; userId := "u2"; eventId := "e2"; isApproved := None |}.

Definition a3 : EventAttendee :=
  {| att_id := "a3"; userId := "u4"; eventId := "e2"; isApproved := Some false |}.

Definition db0 : DB :=
  {| users := <["u1" := alice]> (<["u2" := bob]> (<["u3" := carol]> (<["u4" := erin]> ∅)));
     userTokens := [ {| ut_userId := "u1"; ut_token := "t1" |};
                     {| ut_userId := "u2"; ut_token := "t2" |} ];
     attendees := [ a1; a2; a3 ];
     events := <["e1" := {| ev_isActive := true; endDate := Some 2000000%Z |}]>
               (<["e2" := {| ev_isActive := false; endDate := Some 2000000%Z |}]> ∅) |}.

Definition signup : Body :=
  <["email" := JStr "dave@iti.eg"]> (<["password" := JStr "correct-horse"]>
  (<["role" := JStr "admin"]> (<["isActive" := JBool true]> ∅))).

(** The user that [User_create signup] inserts, and the databases after
    the insert and after the failed delivery. *)
Definition dave : User :=
  {| _id := "u9"; email := "dave@iti.eg"; password := bcrypt_hash "correct-horse"; role := Guest;
     emailVerified := false; isActive := true |}.

Definition db1 : DB := set_users (insert "u9" dave) db0.

Definition db2 : DB :=
  set_userTokens (λ l, (l ++ [{| ut_userId := "u9"; ut_token := "t9" |}])%list) db1.

(** [now], in milliseconds. *)
Definition clock : Z := 1000000.

Definition alice_reset : ResetBody :=
  {| rb_id := Some "u1"; rb_token := Some "t1"; rb_newPassword := Some "new-secret-11" |}.

Definition bob_reset : ResetBody :=
  {| rb_id := Some "u2"; rb_token := Some "t2"; rb_newPassword := Some "new-secret-22" |}.

Definition bob_verify : VerifyQuery :=
  {| vq_token := Some "t2"; vq_id := Some "u2" |}.

Definition reset_ok : Reply := Json 200 [("message", RStr "Password reset successfully.")].

End Fixture.

(** ** The rest of the auth controller *)

Section ForgotPassword.

(** [sendResetPasswordEmail(id, email)] of the email service: it may write to
    the database (the token it mails) and it may reject. *)
Variable sendResetPasswordEmail : string → string → DB → Promise unit * DB.

Definition forgotPassword (email_field : option string) (db : DB) : Reply * DB :=
  if negb (truthy_str email_field) then
    (Next (AppError "Email is required." 400), db)
  else
    let email_arg := default "" email_field in
    match User_findOne email_arg db with
    | Rejected _ => (Next db_error, db)
    | Resolved None => (Next (NotFoundError "No user found with that email address."), db)
    | Resolved (Some u) =>
        match sendResetPasswordEmail (_id u) (email u) db with
        | (Rejected emailError, db1) => (Next (Forwarded emailError), db1)
        | (Resolved _, db1) =>
            (Json 200 [("message", RStr "Password reset email sent successfully.")], db1)
        end
    end.

End ForgotPassword.

(** The second controller file of src/unnamed/part_001: it defines the token
    generators itself and its [login] has no verification check. *)
Module EarlyAuth.

Section Controller.

Variable cfg : Config.
Variable bcrypt_compare : string → string → bool.

Definition generateAccessToken (now : Z) (u : User) : TokenString :=
  jwt_sign now (_id u) (JWT_ACCESS_SECRET cfg) (JWT_ACCESS_EXPIRATION cfg).

Definition generateRefreshToken (now : Z) (u : User) : TokenString :=
  jwt_sign now (_id u) (JWT_REFRESH_SECRET cfg) (JWT_REFRESH_EXPIRATION cfg).

Definition login (now : Z) (req : Credentials) (db : DB) : Reply * DB :=
  if negb (truthy_str (cr_email req)) || negb (truthy_str (cr_password req)) then
    (Next (AppError "Must provide username and password for login." 400), db)
  else
    let email_arg := default "" (cr_email req) in
    let password_arg := default "" (cr_password req) in
    match User_findOne email_arg db with
    | Rejected _ => (Next db_error, db)
    | Resolved None => (Next (AppError "Invalid email or password." 401), db)
    | Resolved (Some u) =>
        if negb (bcrypt_compare password_arg (password u)) then
          (Next (AppError "Invalid email or password." 401), db)
        else
          (Json 200 [("accessToken", RTok (generateAccessToken now u));
                     ("refreshToken", RTok (generateRefreshToken now u))], db)
    end.

Definition refresh (now : Z) (refreshToken : option TokenString) (db : DB) : Reply * DB :=
  match refreshToken with
  | Some token =>
      if negb (truthy_token refreshToken) then
        (Next (AppError "Refresh token required." 400), db)
      else
        match jwt_verify now token (JWT_REFRESH_SECRET cfg) with
        | Rejected _ => (Next (AppError "Invalid or expired refresh token." 403), db)
        | Resolved decoded =>
            match User_findById (payload_id decoded) db with
            | Rejected _ => (Next db_error, db)
            | Resolved None => (Next (AppError "User not found." 404), db)
            | Resolved (Some u) =>
                (Json 200 [("accessToken", RTok (generateAccessToken now u))], db)
            end
        end
  | None => (Next (AppError "Refresh token required." 400), db)
  end.

End Controller.

End EarlyAuth.

(** An email service that stores the token it mails and delivers. *)
Module Mailer.

Definition sendResetPasswordEmail (id to : string) (db : DB) : Promise unit * DB :=
  (Resolved (), set_userTokens (λ l, (l ++ [{| ut_userId := id; ut_token := "r1" |}])%list) db).

(** A User model that reports a duplicate key. *)
Definition User_create_duplicate (doc : Body) (db : DB) : Promise User * DB :=
  (Rejected (CodedError 11000 "E11000 duplicate key error"), db).

End Mailer.

(** ** More invariants of the collections *)

(** A user document is stored under its own [_id]. *)
Definition ids_consistent (db : DB) : Prop :=
  ∀ k u, users db !! k = Some u → _id u = k.

Definition store_ok (db : DB) : Prop :=
  ids_consistent db ∧ emails_distinct (users db) ∧ tokens_keyed db.

(** Attendee documents have distinct ids. *)
Definition attendee_ids_distinct (db : DB) : Prop :=
  NoDup (att_id <$> attendees db).

(** The filter [{ _id: id }] on attendee documents. *)
Definition hit (id : string) (a : EventAttendee) : bool := String.eqb (att_id a) id.

(** The status the client sees: that of the JSON answer, or that of the
    error handed to [next] when it carries one. *)
Definition reply_status (r : Reply) : option Z :=
  match r with
  | Next e => statusOf e
  | Json s _ => Some s
  | Uncaught _ => None
  end.

(** ** The upload middleware (parseFormWithSingleImage) *)

Module Upload.

(** The error multer hands to the callback: its [code] and [field], either
    of which an error may lack. *)
Record UploadError := mkUploadError {
  ue_code : option string;
  ue_field : option string
}.

(** [new ValidationError(message, errors)]. *)
Inductive NextCall :=
| PassOn
| FailValidation (message : string) (errors : list (string * string))
| FailWith (err : UploadError).

(** A value that may be [undefined], inside a template literal or as a
    computed key. *)
Definition to_string (v : option string) : string := default "undefined" v.

Definition code_is (c : string) (e : UploadError) : bool :=
  match ue_code e with
  | Some c' => String.eqb c' c
  | None => false
  end.

(** [fieldName_arg] is the argument of the factory ("image" when it is not
    given), [file_fieldname] is [req.file?.fieldname] and [err] the callback's
    argument. *)
Definition parseFormWithSingleImage (fieldName_arg : option string)
    (file_fieldname : option string) (err : option UploadError) : NextCall :=
  let fieldName := default "image" fieldName_arg in
  match err with
  | Some e =>
      if code_is "LIMIT_FILE_SIZE" e then
        FailValidation "Image size exceeded 10MB limit"
          [(if truthy_str file_fieldname then to_string file_fieldname else fieldName,
            "Image size exceeded 10MB limit")]
      else if code_is "LIMIT_UNEXPECTED_FILE" e then
        FailValidation (to_string (ue_field e) ++ " is not allowed")
          [(to_string (ue_field e), to_string (ue_field e) ++ " is not allowed")]
      else FailWith e
  | None => PassOn
  end.

End Upload.

(** ** The attendee routes (routes/eventAttendees) *)

Module Routes.

Inductive Method := GET | HEAD | POST | PUT | PATCH | DELETE | OPTIONS.

Inductive Middleware := authenticateUser | isAdmin.

Inductive Handler :=
| allAttendees
| approveAttendee
| attendeeById
| deleteAttendee
| pendingAttendees
| rejectAttendee.

(** A segment of a route path: a literal or a named parameter. *)
Inductive Seg :=
| Lit (s : string)
| Param (name : string).

Record Route := mkRoute {
  verb : Method;
  pattern : list Seg;
  middlewares : list Middleware;
  handler : Handler
}.

(** The router, in the order of the [router.get/post/delete] calls. *)
Definition router : list Route :=
  [ mkRoute GET [] [authenticateUser; isAdmin] allAttendees;
    mkRoute GET [Lit "pending"] [authenticateUser; isAdmin] pendingAttendees;
    mkRoute GET [Param "attendeeId"] [authenticateUser; isAdmin] attendeeById;
    mkRoute POST [Param "attendeeId"; Lit "approve"] [authenticateUser; isAdmin] approveAttendee;
    mkRoute POST [Param "attendeeId"; Lit "reject"] [authenticateUser; isAdmin] rejectAttendee;
    mkRoute DELETE [Param "attendeeId"] [authenticateUser; isAdmin] deleteAttendee ].

Definition lower_ascii (c : Ascii.ascii) : Ascii.ascii :=
  let n := Ascii.nat_of_ascii c in
  if (65 <=? n)%nat && (n <=? 90)%nat then Ascii.ascii_of_nat (n + 32) else c.

Fixpoint toLowerCase (s : string) : string :=
  match s with
  | EmptyString => EmptyString
  | String c s' => String (lower_ascii c) (toLowerCase s')
  end.

(** Express matches a literal without regard to case and a parameter against
    any non-empty segment. *)
Definition seg_matches (p : Seg) (s : string) : bool :=
  match p with
  | Lit l => String.eqb (toLowerCase l) (toLowerCase s)
  | Param _ => nonempty s
  end.

Fixpoint path_matches (ps : list Seg) (path : list string) : bool :=
  match ps, path with
  | [], [] => true
  | p :: ps', s :: path' => seg_matches p s && path_matches ps' path'
  | _, _ => false
  end.

(** A route registered for GET also answers HEAD. *)
Definition handles_method (r : Route) (m : Method) : bool :=
  match verb r, m with
  | GET, GET | GET, HEAD | POST, POST | DELETE, DELETE => true
  | _, _ => false
  end.

(** The first route that takes the request whose path, below the mount
    point, has the segments [path]. *)
Definition dispatch (m : Method) (path : list string) : option Route :=
  List.find (λ r, handles_method r m && path_matches (pattern r) path) router.

End Routes.

(** ** Properties of the attendee service *)

Section AttendeeProperties.
Import AttendeeService.

Lemma populate_joined db v :
  joined db (populate_event db (populate_user db v)).
Proof. by split. Qed.

Lemma update_keeps_users id f db :
  users (snd (EventAttendee_findByIdAndUpdate id f db)) = users db
  ∧ events (snd (EventAttendee_findByIdAndUpdate id f db)) = events db.
Proof. by split. Qed.

End AttendeeProperties.

(** C9, as stated, at the deletion: [deleteAttendeeById "a1"] on the sample
    database returns the document of attendee a1 with neither path
    populated, although the user u1 and the event e1 it refers to are both
    stored. *)
Lemma deleteAttendeeById_returns_bare_document :
  fst (AttendeeService.deleteAttendeeById "a1" Fixture.db0)
  = Some {| doc := Fixture.a1; user := None; event := None |}
  ∧ users Fixture.db0 !! "u1" = Some Fixture.alice
  ∧ is_Some (events Fixture.db0 !! "e1")
  ∧ ¬ (∀ id db v db', AttendeeService.deleteAttendeeById id db = (Some v, db')
                       → AttendeeService.joined db v).
Proof.
  split; [reflexivity|]. split; [reflexivity|]. split; [by eexists|].
  intros H.
  destruct (H "a1" Fixture.db0 _ _ eq_refl) as [Hu _].
  discriminate Hu.
Qed.

(** C9 (amended): listing (with or without the approval filter), reading by
    id and the approve/reject update return the attendee joined with its user
    and its event; deletion by id returns the removed document bare, with its
    reference ids only. *)
Theorem attendee_operations_views (db : DB) :
  (∀ flt v, v ∈ AttendeeService.getAllAttendees flt db → AttendeeService.joined db v)
  ∧ (∀ id v, AttendeeService.getAttendeeById id db = Some v → AttendeeService.joined db v)
  ∧ (∀ id b v db', AttendeeService.updateAttendeeApprovalStatus id b db = (Some v, db')
                   → AttendeeService.joined db' v ∧ isApproved (doc v) = Some b
                     ∧ users db' = users db ∧ events db' = events db)
  ∧ (∀ id v db', AttendeeService.deleteAttendeeById id db = (Some v, db')
                 → AttendeeService.bare v).
Proof.
  split; [|split; [|split]].
  - intros flt v H. unfold AttendeeService.getAllAttendees in H.
    apply list_elem_of_fmap in H as (w & -> & H).
    apply list_elem_of_fmap in H as (w' & -> & _).
    apply populate_joined.
  - intros id v H. unfold AttendeeService.getAttendeeById in H.
    destruct (EventAttendee_findById id db); simplify_eq/=.
    apply populate_joined.
  - intros id b v db' H.
    unfold AttendeeService.updateAttendeeApprovalStatus, EventAttendee_findByIdAndUpdate in H.
    destruct (List.find _ _); simplify_eq/=.
    repeat split; reflexivity.
  - intros id v db' H.
    unfold AttendeeService.deleteAttendeeById, EventAttendee_findByIdAndDelete in H.
    destruct (List.find _ _); simplify_eq/=.
    split; reflexivity.
Qed.

(** ** Properties of registration *)

Section RegisterProperties.

Variable cfg : Config.
Variable User_create : Body → DB → Promise User * DB.
Variable sendVerifyEmail : string → string → DB → Promise unit * DB.

Lemma strip_overrides_lookup (body : Body) k :
  k ≠ "isActive" → k ≠ "role" → strip_overrides body !! k = body !! k.
Proof.
  intros Ha Hr. unfold strip_overrides.
  rewrite lookup_delete_ne by done. by rewrite lookup_delete_ne.
Qed.

Lemma strip_overrides_password (body : Body) :
  strip_overrides body !! "password" = body !! "password".
Proof. by apply strip_overrides_lookup. Qed.

Lemma strip_overrides_ext (b1 b2 : Body) :
  (∀ k, k ≠ "isActive" → k ≠ "role" → b1 !! k = b2 !! k) →
  strip_overrides b1 = strip_overrides b2.
Proof.
  intros H. apply map_eq. intros k. unfold strip_overrides.
  destruct (decide (k = "role")) as [->|Hr].
  { by rewrite !lookup_delete_eq. }
  rewrite !(lookup_delete_ne _ "role") by done.
  destruct (decide (k = "isActive")) as [->|Ha].
  { by rewrite !lookup_delete_eq. }
  rewrite !(lookup_delete_ne _ "isActive") by done.
  by apply H.
Qed.

(** C1: when [User.create] resolves to the new user and the verification
    email is rejected, [register] removes the user with that id from the
    database that the email service left, writes nothing else, and hands
    the email error to [next]: no 201 reply is sent. *)
Theorem register_email_failure_deletes_user now body db newUser db1 emailError db2 :
  password_out_of_range (strip_overrides body) = Normal false →
  User_create (strip_overrides body) db = (Resolved newUser, db1) →
  sendVerifyEmail (_id newUser) (email newUser) db1 = (Rejected emailError, db2) →
  register cfg User_create sendVerifyEmail now body db
  = (Next (Forwarded emailError), User_deleteOne (_id newUser) db2)
  ∧ users (User_deleteOne (_id newUser) db2) !! _id newUser = None
  ∧ User_findById (_id newUser) (User_deleteOne (_id newUser) db2) = Resolved None
  ∧ (∀ id, id ≠ _id newUser →
           users (User_deleteOne (_id newUser) db2) !! id = users db2 !! id)
  ∧ userTokens (User_deleteOne (_id newUser) db2) = userTokens db2.
Proof.
  intros Hpw Hcreate Hmail. unfold register.
  rewrite Hpw, Hcreate, Hmail. cbn.
  split; [reflexivity|].
  split; [apply lookup_delete_eq|].
  split; [unfold User_findById; cbn; by rewrite lookup_delete_eq|].
  split; [|reflexivity].
  intros id Hne. by apply lookup_delete_ne.
Qed.

(** C3: the document handed to [User.create] has neither an [isActive]
    nor a [role] key, and two request bodies that differ only in those two
    fields get the same reply and leave the same database: what the client
    sends there never reaches the created user. *)
Theorem register_ignores_isActive_and_role now (b1 b2 : Body) db :
  (∀ k, k ≠ "isActive" → k ≠ "role" → b1 !! k = b2 !! k) →
  strip_overrides b1 !! "isActive" = None
  ∧ strip_overrides b1 !! "role" = None
  ∧ register cfg User_create sendVerifyEmail now b1 db
    = register cfg User_create sendVerifyEmail now b2 db.
Proof.
  intros H. split; [|split].
  - unfold strip_overrides. rewrite lookup_delete_ne by done. apply lookup_delete_eq.
  - unfold strip_overrides. apply lookup_delete_eq.
  - unfold register.
    by rewrite (strip_overrides_ext b1 b2 H).
Qed.

(** C6: a password (a string, or an array) whose length is below 8 or
    above 25 makes [register] call [next] with a 422 error; [User.create]
    is not reached and the database is the one it started from. *)
Theorem register_rejects_password_length now (body : Body) db (n : Z) :
  get_length (body !! "password") = Normal (Some n) →
  (n < 8 ∨ n > 25)%Z →
  register cfg User_create sendVerifyEmail now body db
  = (Next (AppError "Password must be between 8 and 25 characters long." 422), db).
Proof.
  intros Hlen Hn. unfold register, password_out_of_range.
  rewrite strip_overrides_password, Hlen. cbn.
  destruct Hn as [Hn|Hn].
  - apply Z.ltb_lt in Hn. by rewrite Hn.
  - assert ((n >? 25)%Z = true) as -> by lia.
    by rewrite orb_true_r.
Qed.

(** C10: a body without a [password] key makes the length check read
    [length] of [undefined]: a [TypeError] escapes the handler, neither a
    400 nor a 422 is passed to [next], and nothing is written. *)
Theorem register_without_password_throws now (body : Body) db :
  body !! "password" = None →
  register cfg User_create sendVerifyEmail now body db
  = (Uncaught (TypeError "Cannot read properties of undefined (reading 'length')"), db).
Proof.
  intros Hno. unfold register, password_out_of_range.
  by rewrite strip_overrides_password, Hno.
Qed.

End RegisterProperties.

(** ** Properties of token refresh *)

Section RefreshProperties.

Variable cfg : Config.

Lemma refresh_rejected now token db e :
  truthy_token (Some token) = true →
  jwt_verify now token (JWT_REFRESH_SECRET cfg) = Rejected e →
  refresh cfg now (Some token) db
  = (Next (AppError "Invalid or expired refresh token." 403), db).
Proof. intros Ht Hv. unfold refresh. by rewrite Ht, Hv. Qed.

Lemma jwt_verify_wrong_secret now t secret :
  signedWith t ≠ secret → ∃ e, jwt_verify now (Compact t) secret = Rejected e.
Proof.
  intros Hne. unfold jwt_verify.
  apply String.eqb_neq in Hne. rewrite Hne. by eexists.
Qed.

Lemma jwt_verify_expired now t secret :
  (jwt_exp t ≤ now / 1000)%Z → ∃ e, jwt_verify now (Compact t) secret = Rejected e.
Proof.
  intros Hexp. unfold jwt_verify.
  destruct (negb _); [by eexists|].
  apply Z.leb_le in Hexp. rewrite Hexp. by eexists.
Qed.

(** C5: [refresh] answers 400 to an absent (or empty) refresh token; 403
    to every token that [jwt.verify] rejects against the refresh secret: a
    string that is no token, a token signed with another secret (so an
    access token, the two secrets being distinct), an expired one; 404 when
    the verified token names no stored user; and otherwise 200 with a body
    whose only key is [accessToken], a fresh access token for that user.
    The database is never written. *)
Theorem refresh_status_codes now db :
  (∀ t, truthy_token t = false →
        refresh cfg now t db = (Next (AppError "Refresh token required." 400), db))
  ∧ (∀ token e, truthy_token (Some token) = true →
        jwt_verify now token (JWT_REFRESH_SECRET cfg) = Rejected e →
        refresh cfg now (Some token) db
        = (Next (AppError "Invalid or expired refresh token." 403), db))
  ∧ (∀ raw, nonempty raw = true →
        refresh cfg now (Some (Opaque raw)) db
        = (Next (AppError "Invalid or expired refresh token." 403), db))
  ∧ (∀ t, signedWith t ≠ JWT_REFRESH_SECRET cfg ∨ (jwt_exp t ≤ now / 1000)%Z →
        refresh cfg now (Some (Compact t)) db
        = (Next (AppError "Invalid or expired refresh token." 403), db))
  ∧ (JWT_ACCESS_SECRET cfg ≠ JWT_REFRESH_SECRET cfg →
        ∀ issued u, refresh cfg now (Some (generateAccessToken cfg issued u)) db
        = (Next (AppError "Invalid or expired refresh token." 403), db))
  ∧ (∀ token decoded, jwt_verify now token (JWT_REFRESH_SECRET cfg) = Resolved decoded →
        users db !! payload_id decoded = None →
        refresh cfg now (Some token) db = (Next (AppError "User not found." 404), db))
  ∧ (∀ token decoded u, jwt_verify now token (JWT_REFRESH_SECRET cfg) = Resolved decoded →
        users db !! payload_id decoded = Some u →
        refresh cfg now (Some token) db
        = (Json 200 [("accessToken", RTok (generateAccessToken cfg now u))], db)
        ∧ field "refreshToken" [("accessToken", RTok (generateAccessToken cfg now u))] = None).
Proof.
  repeat apply conj.
  - intros [token|] Ht; unfold refresh; [by rewrite Ht|done].
  - intros token e Ht Hv. by eapply refresh_rejected.
  - intros raw Hraw. by eapply refresh_rejected.
  - intros t [Hs|Hx].
    + destruct (jwt_verify_wrong_secret now t _ Hs) as [e He].
      by eapply refresh_rejected.
    + destruct (jwt_verify_expired now t (JWT_REFRESH_SECRET cfg) Hx) as [e He].
      by eapply refresh_rejected.
  - intros Hne issued u.
    destruct (jwt_verify_wrong_secret now
                {| payload_id := _id u; signedWith := JWT_ACCESS_SECRET cfg;
                   jwt_exp := (issued / 1000 + JWT_ACCESS_EXPIRATION cfg)%Z |}
                (JWT_REFRESH_SECRET cfg) Hne) as [e He].
    by eapply refresh_rejected.
  - intros token decoded Hv Hu. unfold refresh, User_findById.
    assert (truthy_token (Some token) = true) as ->
      by (destruct token; [done|discriminate Hv]).
    by rewrite Hv, Hu.
  - intros token decoded u Hv Hu. unfold refresh, User_findById.
    assert (truthy_token (Some token) = true) as ->
      by (destruct token; [done|discriminate Hv]).
    by rewrite Hv, Hu.
Qed.

End RefreshProperties.

(** ** Properties of email verification *)

Lemma set_emailVerified_idemp b u :
  set_emailVerified b (set_emailVerified b u) = set_emailVerified b u.
Proof. reflexivity. Qed.

Lemma alter_twice {A} (f : A → A) (k : string) (m : gmap string A) :
  (∀ x, f (f x) = f x) → alter f k (alter f k m) = alter f k m.
Proof.
  intros Hf. apply map_eq. intros i.
  destruct (decide (i = k)) as [->|Hne].
  - rewrite !lookup_alter_eq. destruct (m !! k); cbn; by rewrite ?Hf.
  - by rewrite !lookup_alter_ne.
Qed.

(** C7: a verification that answers 200 turns [emailVerified] of the user
    [id] to true and leaves every other user, the tokens, the attendees and
    the events as they were; the token document is still found afterwards,
    and the same request on the resulting database answers 200 again. *)
Theorem verify_keeps_token req db body db' :
  verify req db = (Json 200 body, db') →
  ∃ id token u t,
    vq_id req = Some id ∧ vq_token req = Some token
    ∧ users db !! id = Some u
    ∧ users db' !! id = Some (set_emailVerified true u)
    ∧ emailVerified (set_emailVerified true u) = true
    ∧ (∀ id', id' ≠ id → users db' !! id' = users db !! id')
    ∧ userTokens db' = userTokens db
    ∧ attendees db' = attendees db
    ∧ events db' = events db
    ∧ UserToken_findOne id token db' = Resolved (Some t)
    ∧ verify req db' = (Json 200 body, db').
Proof.
  unfold verify. intros H.
  destruct req as [[token|] [id|]]; cbn in H; try (rewrite ?orb_true_r in H; simplify_eq).
  destruct (nonempty token) eqn:Ht; cbn in H; [|simplify_eq].
  destruct (nonempty id) eqn:Hi; cbn in H; [|simplify_eq].
  unfold UserToken_findOne, User_findByIdAndUpdate in *.
  destruct (List.find _ _) as [t|] eqn:Hfind; [|simplify_eq].
  destruct (users db !! id) as [u|] eqn:Hu; simplify_eq.
  exists id, token, u, t. cbn.
  do 3 (split; [done|]).
  split; [by rewrite lookup_alter_eq, Hu|].
  split; [done|].
  split; [intros id' Hne; by rewrite lookup_alter_ne|].
  do 3 (split; [done|]).
  split; [by rewrite Hfind|].
  - rewrite Ht, Hi, Hfind. cbn.
    rewrite lookup_alter_eq, Hu. cbn.
    f_equal. unfold set_users. cbn. f_equal.
    apply alter_twice, set_emailVerified_idemp.
Qed.

(** ** Lists of documents *)

Lemma find_None_intro {A} (p : A → bool) (l : list A) :
  (∀ x, x ∈ l → p x = false) → List.find p l = None.
Proof.
  induction l as [|x l IH]; intros H; [done|]. cbn.
  rewrite (H x) by apply list_elem_of_here.
  apply IH. intros y Hy. apply H. by apply list_elem_of_further.
Qed.

Lemma elem_of_remove_first {A} (p : A → bool) (l : list A) x :
  x ∈ remove_first p l → x ∈ l.
Proof.
  induction l as [|y l IH]; cbn; [done|].
  destruct (p y); intros H.
  - by apply list_elem_of_further.
  - apply elem_of_cons in H as [->|H]; [apply list_elem_of_here|].
    apply list_elem_of_further. by apply IH.
Qed.

(** With at most one document per key, removing the first match leaves no
    match. *)
Lemma remove_first_no_match {A B} (key : A → B) (k : B) (p : A → bool) (l : list A) :
  (∀ x, p x = true ↔ key x = k) →
  NoDup (key <$> l) →
  ∀ x, x ∈ remove_first p l → p x = false.
Proof.
  intros Hp. induction l as [|y l IH]; cbn; intros Hnd x Hx.
  { by apply elem_of_nil in Hx. }
  apply NoDup_cons in Hnd as [Hy Hnd].
  destruct (p y) eqn:Hpy.
  - destruct (p x) eqn:Hpx; [|done].
    exfalso. apply Hy. apply Hp in Hpy, Hpx.
    rewrite Hpy, <- Hpx. by apply list_elem_of_fmap_2.
  - apply elem_of_cons in Hx as [->|Hx]; [done|]. by apply IH.
Qed.

Lemma NoDup_fmap_eq {A B} (g : A → B) (l : list A) x y :
  NoDup (g <$> l) → x ∈ l → y ∈ l → g x = g y → x = y.
Proof.
  induction l as [|z l IH]; cbn; intros Hnd Hx Hy Hg.
  { by apply elem_of_nil in Hx. }
  apply NoDup_cons in Hnd as [Hz Hnd].
  apply elem_of_cons in Hx as [->|Hx]; apply elem_of_cons in Hy as [->|Hy].
  - done.
  - exfalso. apply Hz. rewrite Hg. by apply list_elem_of_fmap_2.
  - exfalso. apply Hz. rewrite <- Hg. by apply list_elem_of_fmap_2.
  - by apply IH.
Qed.

Lemma token_matches_key id tok t :
  token_matches id tok t = true ↔ token_key t = (id, tok).
Proof.
  unfold token_matches, token_key.
  rewrite andb_true_iff, !String.eqb_eq. split; [intros [-> ->]; done|].
  intros H. by inversion H.
Qed.

(** ** Properties of password reset *)

Section ResetProperties.

Variable bcrypt_hash : string → string.

(** What a 200 from [resetPassword] says about the request and the two
    databases. *)
Lemma resetPassword_success req db body db' :
  resetPassword bcrypt_hash req db = (Json 200 body, db') →
  ∃ id token newPassword t u,
    req = {| rb_id := Some id; rb_token := Some token; rb_newPassword := Some newPassword |}
    ∧ nonempty id = true ∧ nonempty token = true ∧ nonempty newPassword = true
    ∧ (8 ≤ Z.of_nat (String.length newPassword) ≤ 25)%Z
    ∧ List.find (token_matches id token) (userTokens db) = Some t
    ∧ users db !! id = Some u
    ∧ db' = UserToken_deleteOne id token
              (set_users (alter (User_writePassword bcrypt_hash newPassword) id) db).
Proof.
  unfold resetPassword. intros H.
  destruct req as [[id|] [token|] [newPassword|]]; cbn in H;
    try (rewrite ?orb_true_r in H; simplify_eq).
  destruct (nonempty id) eqn:Hi; cbn in H; [|simplify_eq].
  destruct (nonempty token) eqn:Ht; cbn in H; [|simplify_eq].
  destruct (nonempty newPassword) eqn:Hn; cbn in H; [|simplify_eq].
  destruct (_ || _) eqn:Hlen; [simplify_eq|].
  apply orb_false_iff in Hlen as [Hlo Hhi].
  unfold UserToken_findOne, User_findByIdAndUpdate in H.
  destruct (List.find _ _) as [t|] eqn:Hfind; [|simplify_eq].
  destruct (users db !! id) as [u|] eqn:Hu; cbn in H; simplify_eq.
  exists id, token, newPassword, t, u.
  repeat split; try done; lia.
Qed.

(** C2: with token documents keyed by (userId, token), a reset that
    answers 200 removes the token document it matched: no document with
    that key is left, the same request on the resulting database gets the
    400 "Invalid or expired token." and writes nothing (so the password
    stays), and no request with that (id, token) pair succeeds there,
    whatever new password it carries. *)
Theorem resetPassword_consumes_token req db body db' :
  tokens_keyed db →
  resetPassword bcrypt_hash req db = (Json 200 body, db') →
  ∃ id token,
    rb_id req = Some id ∧ rb_token req = Some token
    ∧ is_Some (List.find (token_matches id token) (userTokens db))
    ∧ userTokens db' = remove_first (token_matches id token) (userTokens db)
    ∧ UserToken_findOne id token db' = Resolved None
    ∧ (∀ t, t ∈ userTokens db' → token_key t ≠ (id, token))
    ∧ resetPassword bcrypt_hash req db'
      = (Next (AppError "Invalid or expired token." 400), db')
    ∧ (∀ newPassword', ∃ err,
         resetPassword bcrypt_hash
           {| rb_id := Some id; rb_token := Some token; rb_newPassword := newPassword' |} db'
         = (Next err, db')).
Proof.
  intros Hkeyed H.
  destruct (resetPassword_success _ _ _ _ H)
    as (id & token & np & t & u & -> & Hi & Ht & Hn & Hlen & Hfind & Hu & ->).
  exists id, token. cbn.
  assert (∀ x, x ∈ remove_first (token_matches id token) (userTokens db)
               → token_matches id token x = false) as Hgone.
  { apply (remove_first_no_match token_key (id, token)); [|done].
    intros x. apply token_matches_key. }
  assert (List.find (token_matches id token)
            (remove_first (token_matches id token) (userTokens db)) = None) as Hnone.
  { by apply find_None_intro. }
  do 2 (split; [done|]).
  split; [by rewrite Hfind|].
  split; [done|].
  split; [unfold UserToken_findOne; cbn; by rewrite Hnone|].
  split.
  { intros x Hx Hk. apply token_matches_key in Hk.
    rewrite (Hgone x Hx) in Hk. discriminate. }
  split.
  - unfold resetPassword, UserToken_findOne. cbn. rewrite Hi, Ht, Hn. cbn.
    assert ((Z.of_nat (String.length np) <? 8)%Z = false) as -> by lia.
    assert ((Z.of_nat (String.length np) >? 25)%Z = false) as -> by lia.
    cbn. by rewrite Hnone.
  - intros np'. unfold resetPassword, UserToken_findOne. cbn. rewrite Hi, Ht. cbn.
    destruct (truthy_str np'); cbn; [|by eexists].
    destruct (_ || _); [by eexists|].
    rewrite Hnone. by eexists.
Qed.

End ResetProperties.

(** ** Properties of login *)

Section LoginProperties.

Variable cfg : Config.
Variable bcrypt_compare : string → string → bool.
Variable bcrypt_hash : string → string.

Lemma token_pair_fields now u :
  field "accessToken" (token_pair cfg now u) = Some (RTok (generateAccessToken cfg now u))
  ∧ field "refreshToken" (token_pair cfg now u) = Some (RTok (generateRefreshToken cfg now u)).
Proof. by split. Qed.

(** [hasValidEvent] of [loginMobile] decides [has_valid_event]. *)
Lemma hasValidEvent_spec today u db eventAttendees :
  EventAttendee_find_populate_event (_id u) db = Resolved eventAttendees →
  existsb (valid_event today) eventAttendees = true ↔ has_valid_event today u db.
Proof.
  unfold EventAttendee_find_populate_event, EventAttendee_find. intros [= <-].
  rewrite existsb_exists. split.
  - intros (v & Hin & Hv).
    apply list_elem_of_In, list_elem_of_fmap in Hin as (w & -> & Hin).
    apply list_elem_of_fmap in Hin as (a & -> & Hin).
    apply list_elem_of_In, filter_In in Hin as [Hin Hid].
    apply list_elem_of_In in Hin. apply String.eqb_eq in Hid.
    unfold valid_event in Hv. cbn in Hv.
    destruct (events db !! eventId a) as [ev|] eqn:Hev; [|done].
    apply andb_true_iff in Hv as [Hact Hend].
    destruct (endDate ev) as [d|] eqn:Hd; [|done].
    exists a, ev, d. repeat split; try done. lia.
  - intros (a & ev & d & Hin & Hid & Hev & Hact & Hd & Hle).
    exists (populate_event db (unpopulated a)). split.
    + apply list_elem_of_In, list_elem_of_fmap_2, list_elem_of_fmap_2.
      apply list_elem_of_In, filter_In. split; [by apply list_elem_of_In|].
      by apply String.eqb_eq.
    + unfold valid_event. cbn. rewrite Hev, Hact, Hd. cbn. lia.
Qed.

(** C4: for a mobile login with the right password by a user whose email
    is verified: a guest without an attendee document whose event is active
    and ends at the current instant or later (in particular a guest without
    any attendee document) gets the 403 and no token; a guest with such a
    document, and any user who is not a guest, gets an access token and a
    refresh token.  The database is not written. *)
Theorem loginMobile_guest_gate now email_arg password_arg db u :
  nonempty email_arg = true →
  nonempty password_arg = true →
  User_findOne email_arg db = Resolved (Some u) →
  emailVerified u = true →
  bcrypt_compare password_arg (password u) = true →
  let req := {| cr_email := Some email_arg; cr_password := Some password_arg |} in
  let denied :=
    (Next (AppError "User must have an active event with a valid end date to log in." 403), db) in
  (role u = Guest → ¬ has_valid_event now u db →
     loginMobile cfg bcrypt_compare now req db = denied)
  ∧ (role u = Guest → (∀ a, a ∈ attendees db → userId a ≠ _id u) →
     loginMobile cfg bcrypt_compare now req db = denied)
  ∧ (role u = Guest → has_valid_event now u db →
     loginMobile cfg bcrypt_compare now req db = (Json 200 (token_pair cfg now u), db))
  ∧ (role u ≠ Guest →
     loginMobile cfg bcrypt_compare now req db = (Json 200 (token_pair cfg now u), db))
  ∧ is_Some (field "accessToken" (token_pair cfg now u))
  ∧ is_Some (field "refreshToken" (token_pair cfg now u)).
Proof.
  intros He Hp Hfind Hver Hcmp req denied.
  assert (loginMobile cfg bcrypt_compare now req db
               = if is_Guest (role u) then
                   if negb (existsb (valid_event now)
                              (populate_event db <$>
                                 EventAttendee_find (λ a, String.eqb (userId a) (_id u)) db))
                   then denied else (Json 200 (token_pair cfg now u), db)
                 else (Json 200 (token_pair cfg now u), db)) as Hrun.
  { unfold loginMobile, req. cbn [cr_email cr_password truthy_str].
    rewrite He, Hp. cbn [negb orb default from_option]. unfold id.
    rewrite Hfind, Hver, Hcmp. reflexivity. }
  pose proof (hasValidEvent_spec now u db _ eq_refl) as Hspec.
  assert (role u = Guest → ¬ has_valid_event now u db →
          loginMobile cfg bcrypt_compare now req db = denied) as Hdeny.
  { intros Hg Hno. rewrite Hrun, Hg. cbn.
    destruct (existsb _ _) eqn:Hex; [|done].
    exfalso. apply Hno. by apply Hspec. }
  split; [exact Hdeny|].
  split.
  { intros Hg Hnone. apply Hdeny; [done|].
    intros (a & ev & d & Hin & Hid & _). by apply (Hnone a). }
  split.
  { intros Hg Hyes. rewrite Hrun, Hg. cbn.
    apply Hspec in Hyes. by rewrite Hyes. }
  split.
  { intros Hng. rewrite Hrun. by destruct (role u). }
  split; by eexists.
Qed.

Lemma unique_emails_distinct db : unique_emails db → emails_distinct (users db).
Proof.
  intros Hnd i j u v Hi Hj He.
  apply elem_of_map_to_list in Hi, Hj.
  by pose proof (NoDup_fmap_eq _ _ (i, u) (j, v) Hnd Hi Hj He) as [= -> _].
Qed.

Lemma emails_distinct_alter f id m :
  (∀ u, email (f u) = email u) → emails_distinct m → emails_distinct (alter f id m).
Proof.
  intros Hf Hm i j u v Hi Hj He.
  assert (∀ k w, alter f id m !! k = Some w
                 → ∃ w0, m !! k = Some w0 ∧ email w0 = email w) as Hback.
  { intros k w. destruct (decide (k = id)) as [->|Hne].
    - rewrite lookup_alter_eq. destruct (m !! id) as [w0|]; [|done].
      intros [= <-]. eauto.
    - rewrite lookup_alter_ne by done. eauto. }
  destruct (Hback _ _ Hi) as (u0 & Hi0 & Hu0).
  destruct (Hback _ _ Hj) as (v0 & Hj0 & Hv0).
  apply (Hm i j u0 v0); [done..|]. congruence.
Qed.

Lemma findOne_by_email m id u :
  emails_distinct m → m !! id = Some u →
  snd <$> List.find (λ kv : string * User, String.eqb (email (snd kv)) (email u)) (map_to_list m)
  = Some u.
Proof.
  intros Hm Hu.
  destruct (List.find _ _) as [[k v]|] eqn:Hfind; cbn.
  - apply find_some in Hfind as [Hin Heq]. cbn in Heq.
    apply list_elem_of_In, elem_of_map_to_list in Hin.
    apply String.eqb_eq in Heq.
    assert (k = id) as -> by by eapply Hm.
    congruence.
  - exfalso.
    assert (In (id, u) (map_to_list m)) as Hin
      by by apply list_elem_of_In, elem_of_map_to_list.
    pose proof (find_none _ _ Hfind (id, u) Hin) as Hfalse.
    cbn in Hfalse. by rewrite String.eqb_refl in Hfalse.
Qed.

(** C8 (amended): for a user whose email is verified, with the unique
    index on email and a bcrypt whose [compare] accepts a password against
    its own hash: after a reset that answers 200 the stored password is the
    hash of the new password, and a login with the user's email and the new
    password answers 200 with both tokens. *)
Theorem reset_then_login_verified now req db body db' uid newPassword u :
  (∀ p, bcrypt_compare p (bcrypt_hash p) = true) →
  unique_emails db →
  rb_id req = Some uid →
  rb_newPassword req = Some newPassword →
  users db !! uid = Some u →
  emailVerified u = true →
  nonempty (email u) = true →
  resetPassword bcrypt_hash req db = (Json 200 body, db') →
  users db' !! uid = Some (set_password (bcrypt_hash newPassword) u)
  ∧ login cfg bcrypt_compare now
      {| cr_email := Some (email u); cr_password := Some newPassword |} db'
    = (Json 200 (token_pair cfg now (set_password (bcrypt_hash newPassword) u)), db').
Proof.
  intros Hbcrypt Huniq Hid Hnp Hu Hver Hemail H.
  destruct (resetPassword_success _ _ _ _ _ H)
    as (id0 & token & np & t & u0 & -> & Hi & Ht & Hn & Hlen & Hfind & Hu0 & ->).
  cbn in Hid, Hnp. injection Hid as ->. injection Hnp as ->.
  assert (users (UserToken_deleteOne uid token
                   (set_users (alter (User_writePassword bcrypt_hash newPassword) uid) db)) !! uid
          = Some (set_password (bcrypt_hash newPassword) u)) as Hstored.
  { cbn. by rewrite lookup_alter_eq, Hu. }
  split; [exact Hstored|].
  unfold login. cbn [cr_email cr_password truthy_str].
  rewrite Hemail, Hn. cbn [negb orb default from_option]. unfold id.
  unfold User_findOne.
  change (email u) with (email (set_password (bcrypt_hash newPassword) u)) at 1.
  rewrite (findOne_by_email _ uid (set_password (bcrypt_hash newPassword) u)).
  - cbn. rewrite Hver, Hbcrypt. reflexivity.
  - apply emails_distinct_alter; [done|]. by apply unique_emails_distinct.
  - exact Hstored.
Qed.

End LoginProperties.

(** ** Runs of the handlers at the sample deployment *)

Example refresh_without_token :
  refresh Fixture.cfg Fixture.clock None Fixture.db0
  = (Next (AppError "Refresh token required." 400), Fixture.db0).
Proof. reflexivity. Qed.

Example refresh_with_access_token :
  refresh Fixture.cfg Fixture.clock
    (Some (generateAccessToken Fixture.cfg Fixture.clock Fixture.alice)) Fixture.db0
  = (Next (AppError "Invalid or expired refresh token." 403), Fixture.db0).
Proof. reflexivity. Qed.

Example refresh_with_expired_token :
  refresh Fixture.cfg (Fixture.clock + 604800 * 1000)
    (Some (generateRefreshToken Fixture.cfg Fixture.clock Fixture.alice)) Fixture.db0
  = (Next (AppError "Invalid or expired refresh token." 403), Fixture.db0).
Proof. reflexivity. Qed.

Example refresh_of_deleted_user :
  refresh Fixture.cfg Fixture.clock
    (Some (generateRefreshToken Fixture.cfg Fixture.clock Fixture.dave)) Fixture.db0
  = (Next (AppError "User not found." 404), Fixture.db0).
Proof. vm_compute. reflexivity. Qed.

Example refresh_with_refresh_token :
  refresh Fixture.cfg Fixture.clock
    (Some (generateRefreshToken Fixture.cfg Fixture.clock Fixture.alice)) Fixture.db0
  = (Json 200 [("accessToken", RTok (generateAccessToken Fixture.cfg Fixture.clock Fixture.alice))],
     Fixture.db0).
Proof. vm_compute. reflexivity. Qed.

Example loginMobile_guest_with_inactive_event :
  loginMobile Fixture.cfg Fixture.bcrypt_compare Fixture.clock
    {| cr_email := Some "erin@iti.eg"; cr_password := Some "old-secret-4" |} Fixture.db0
  = (Next (AppError "User must have an active event with a valid end date to log in." 403),
     Fixture.db0).
Proof. vm_compute. reflexivity. Qed.

Example loginMobile_admin :
  fst (loginMobile Fixture.cfg Fixture.bcrypt_compare Fixture.clock
         {| cr_email := Some "carol@iti.eg"; cr_password := Some "old-secret-3" |} Fixture.db0)
  = Json 200 (token_pair Fixture.cfg Fixture.clock Fixture.carol).
Proof. vm_compute. reflexivity. Qed.

Example loginMobile_after_event_end :
  fst (loginMobile Fixture.cfg Fixture.bcrypt_compare 2000001
         {| cr_email := Some "alice@iti.eg"; cr_password := Some "old-secret-1" |} Fixture.db0)
  = Next (AppError "User must have an active event with a valid end date to log in." 403).
Proof. vm_compute. reflexivity. Qed.

Example register_signup_creates_guest :
  fst (register Fixture.cfg Fixture.User_create (λ _ _ db, (Resolved (), db))
         Fixture.clock Fixture.signup Fixture.db0)
  = Json 201 [("user", RUser Fixture.dave);
              ("accessToken", RTok (generateAccessToken Fixture.cfg Fixture.clock Fixture.dave));
              ("refreshToken", RTok (generateRefreshToken Fixture.cfg Fixture.clock Fixture.dave))].
Proof. vm_compute. reflexivity. Qed.

Example getAllAttendees_approved :
  AttendeeService.getAllAttendees (Some true) Fixture.db0
  = [ {| doc := Fixture.a1; user := Some (Some Fixture.alice);
         event := Some (Some {| ev_isActive := true; endDate := Some 2000000%Z |}) |} ].
Proof. vm_compute. reflexivity. Qed.

Example approve_pending_attendee :
  fst (AttendeeService.updateAttendeeApprovalStatus "a2" true Fixture.db0)
  = Some {| doc := AttendeeService.set_isApproved true Fixture.a2;
            user := Some (Some Fixture.bob);
            event := Some (Some {| ev_isActive := false; endDate := Some 2000000%Z |}) |}.
Proof. vm_compute. reflexivity. Qed.

Example getAttendeeById_unknown :
  AttendeeService.getAttendeeById "a9" Fixture.db0 = None.
Proof. reflexivity. Qed.

(** ** The theorems at the sample deployment *)

Lemma register_email_failure_deletes_user_witness :
  password_out_of_range (strip_overrides Fixture.signup) = Normal false
  ∧ Fixture.User_create (strip_overrides Fixture.signup) Fixture.db0
    = (Resolved Fixture.dave, Fixture.db1)
  ∧ Fixture.sendVerifyEmail "u9" "dave@iti.eg" Fixture.db1
    = (Rejected (PlainError "connect ECONNREFUSED"), Fixture.db2)
  ∧ register Fixture.cfg Fixture.User_create Fixture.sendVerifyEmail
      Fixture.clock Fixture.signup Fixture.db0
    = (Next (Forwarded (PlainError "connect ECONNREFUSED")), User_deleteOne "u9" Fixture.db2)
  ∧ users (User_deleteOne "u9" Fixture.db2) !! "u9" = None.
Proof.
  assert (password_out_of_range (strip_overrides Fixture.signup) = Normal false) as H1
    by (vm_compute; reflexivity).
  assert (Fixture.User_create (strip_overrides Fixture.signup) Fixture.db0
          = (Resolved Fixture.dave, Fixture.db1)) as H2 by (vm_compute; reflexivity).
  assert (Fixture.sendVerifyEmail "u9" "dave@iti.eg" Fixture.db1
          = (Rejected (PlainError "connect ECONNREFUSED"), Fixture.db2)) as H3
    by reflexivity.
  destruct (register_email_failure_deletes_user Fixture.cfg Fixture.User_create
              Fixture.sendVerifyEmail Fixture.clock Fixture.signup Fixture.db0
              Fixture.dave Fixture.db1 _ Fixture.db2 H1 H2 H3) as (Hr & Hgone & _).
  repeat split; assumption.
Defined.

Lemma register_ignores_isActive_and_role_witness :
  (∀ k, k ≠ "isActive" → k ≠ "role" →
        Fixture.signup !! k = strip_overrides Fixture.signup !! k)
  ∧ register Fixture.cfg Fixture.User_create Fixture.sendVerifyEmail
      Fixture.clock Fixture.signup Fixture.db0
    = register Fixture.cfg Fixture.User_create Fixture.sendVerifyEmail
        Fixture.clock (strip_overrides Fixture.signup) Fixture.db0.
Proof.
  assert (∀ k, k ≠ "isActive" → k ≠ "role" →
               Fixture.signup !! k = strip_overrides Fixture.signup !! k) as H.
  { intros k Ha Hr. unfold strip_overrides.
    rewrite lookup_delete_ne by done. by rewrite lookup_delete_ne. }
  split; [exact H|].
  apply (register_ignores_isActive_and_role Fixture.cfg Fixture.User_create
           Fixture.sendVerifyEmail Fixture.clock _ _ Fixture.db0 H).
Defined.

Lemma register_rejects_password_length_witness :
  get_length ((<["password" := JStr "short"]> Fixture.signup) !! "password") = Normal (Some 5%Z)
  ∧ (5 < 8 ∨ 5 > 25)%Z
  ∧ register Fixture.cfg Fixture.User_create Fixture.sendVerifyEmail
      Fixture.clock (<["password" := JStr "short"]> Fixture.signup) Fixture.db0
    = (Next (AppError "Password must be between 8 and 25 characters long." 422), Fixture.db0).
Proof.
  assert (get_length ((<["password" := JStr "short"]> Fixture.signup) !! "password")
          = Normal (Some 5%Z)) as H by (vm_compute; reflexivity).
  assert (5 < 8 ∨ 5 > 25)%Z as H5 by (left; lia).
  split; [exact H|]. split; [exact H5|].
  apply (register_rejects_password_length Fixture.cfg Fixture.User_create
           Fixture.sendVerifyEmail Fixture.clock _ Fixture.db0 5 H H5).
Defined.

Lemma register_without_password_throws_witness :
  delete "password" Fixture.signup !! "password" = None
  ∧ register Fixture.cfg Fixture.User_create Fixture.sendVerifyEmail
      Fixture.clock (delete "password" Fixture.signup) Fixture.db0
    = (Uncaught (TypeError "Cannot read properties of undefined (reading 'length')"), Fixture.db0).
Proof.
  assert (delete "password" Fixture.signup !! "password" = None) as H
    by (vm_compute; reflexivity).
  split; [exact H|].
  apply (register_without_password_throws Fixture.cfg Fixture.User_create
           Fixture.sendVerifyEmail Fixture.clock _ Fixture.db0 H).
Defined.

Lemma resetPassword_consumes_token_witness :
  tokens_keyed Fixture.db0
  ∧ resetPassword Fixture.bcrypt_hash Fixture.alice_reset Fixture.db0
    = (Fixture.reset_ok, snd (resetPassword Fixture.bcrypt_hash Fixture.alice_reset Fixture.db0))
  ∧ resetPassword Fixture.bcrypt_hash Fixture.alice_reset
      (snd (resetPassword Fixture.bcrypt_hash Fixture.alice_reset Fixture.db0))
    = (Next (AppError "Invalid or expired token." 400),
       snd (resetPassword Fixture.bcrypt_hash Fixture.alice_reset Fixture.db0)).
Proof.
  assert (tokens_keyed Fixture.db0) as H1.
  { unfold tokens_keyed. apply (bool_decide_unpack _). vm_compute. reflexivity. }
  assert (resetPassword Fixture.bcrypt_hash Fixture.alice_reset Fixture.db0
          = (Fixture.reset_ok,
             snd (resetPassword Fixture.bcrypt_hash Fixture.alice_reset Fixture.db0))) as H2
    by (vm_compute; reflexivity).
  destruct (resetPassword_consumes_token Fixture.bcrypt_hash Fixture.alice_reset Fixture.db0
              _ _ H1 H2) as (id & token & _ & _ & _ & _ & _ & _ & Hagain & _).
  repeat split; assumption.
Defined.

Lemma loginMobile_guest_gate_witness :
  nonempty "alice@iti.eg" = true
  ∧ nonempty "old-secret-1" = true
  ∧ User_findOne "alice@iti.eg" Fixture.db0 = Resolved (Some Fixture.alice)
  ∧ emailVerified Fixture.alice = true
  ∧ Fixture.bcrypt_compare "old-secret-1" (password Fixture.alice) = true
  ∧ has_valid_event Fixture.clock Fixture.alice Fixture.db0
  ∧ loginMobile Fixture.cfg Fixture.bcrypt_compare Fixture.clock
      {| cr_email := Some "alice@iti.eg"; cr_password := Some "old-secret-1" |} Fixture.db0
    = (Json 200 (token_pair Fixture.cfg Fixture.clock Fixture.alice), Fixture.db0).
Proof.
  assert (User_findOne "alice@iti.eg" Fixture.db0 = Resolved (Some Fixture.alice)) as Hfind
    by (vm_compute; reflexivity).
  assert (Fixture.bcrypt_compare "old-secret-1" (password Fixture.alice) = true) as Hcmp
    by (vm_compute; reflexivity).
  assert (has_valid_event Fixture.clock Fixture.alice Fixture.db0) as Hev.
  { exists Fixture.a1, {| ev_isActive := true; endDate := Some 2000000%Z |}, 2000000%Z.
    split; [apply list_elem_of_here|].
    split; [reflexivity|].
    split; [vm_compute; reflexivity|].
    split; [reflexivity|].
    split; [reflexivity|].
    unfold Fixture.clock. lia. }
  destruct (loginMobile_guest_gate Fixture.cfg Fixture.bcrypt_compare Fixture.clock
              "alice@iti.eg" "old-secret-1" Fixture.db0 Fixture.alice
              eq_refl eq_refl Hfind eq_refl Hcmp) as (_ & _ & Hok & _).
  pose proof (Hok eq_refl Hev) as Hrun.
  do 2 (split; [reflexivity|]).
  split; [exact Hfind|].
  split; [reflexivity|].
  split; [exact Hcmp|].
  split; [exact Hev|exact Hrun].
Defined.

Lemma verify_keeps_token_witness :
  verify Fixture.bob_verify Fixture.db0
  = (Json 200 [("message", RStr "Email verified successfully.")],
     snd (verify Fixture.bob_verify Fixture.db0))
  ∧ verify Fixture.bob_verify (snd (verify Fixture.bob_verify Fixture.db0))
    = (Json 200 [("message", RStr "Email verified successfully.")],
       snd (verify Fixture.bob_verify Fixture.db0))
  ∧ userTokens (snd (verify Fixture.bob_verify Fixture.db0)) = userTokens Fixture.db0.
Proof.
  assert (verify Fixture.bob_verify Fixture.db0
          = (Json 200 [("message", RStr "Email verified successfully.")],
             snd (verify Fixture.bob_verify Fixture.db0))) as H
    by (vm_compute; reflexivity).
  destruct (verify_keeps_token Fixture.bob_verify Fixture.db0 _ _ H)
    as (id & token & u & t & _ & _ & _ & _ & _ & _ & Htok & _ & _ & _ & Hagain).
  repeat split; assumption.
Defined.

Lemma reset_then_login_verified_witness :
  (∀ p, Fixture.bcrypt_compare p (Fixture.bcrypt_hash p) = true)
  ∧ unique_emails Fixture.db0
  ∧ users Fixture.db0 !! "u1" = Some Fixture.alice
  ∧ emailVerified Fixture.alice = true
  ∧ resetPassword Fixture.bcrypt_hash Fixture.alice_reset Fixture.db0
    = (Fixture.reset_ok, snd (resetPassword Fixture.bcrypt_hash Fixture.alice_reset Fixture.db0))
  ∧ login Fixture.cfg Fixture.bcrypt_compare Fixture.clock
      {| cr_email := Some "alice@iti.eg"; cr_password := Some "new-secret-11" |}
      (snd (resetPassword Fixture.bcrypt_hash Fixture.alice_reset Fixture.db0))
    = (Json 200 (token_pair Fixture.cfg Fixture.clock
                   (set_password (Fixture.bcrypt_hash "new-secret-11") Fixture.alice)),
       snd (resetPassword Fixture.bcrypt_hash Fixture.alice_reset Fixture.db0)).
Proof.
  assert (∀ p, Fixture.bcrypt_compare p (Fixture.bcrypt_hash p) = true) as Hbcrypt.
  { intros p. unfold Fixture.bcrypt_compare. apply String.eqb_refl. }
  assert (unique_emails Fixture.db0) as Huniq.
  { unfold unique_emails. apply (bool_decide_unpack _). vm_compute. reflexivity. }
  assert (users Fixture.db0 !! "u1" = Some Fixture.alice) as Hu by (vm_compute; reflexivity).
  assert (resetPassword Fixture.bcrypt_hash Fixture.alice_reset Fixture.db0
          = (Fixture.reset_ok,
             snd (resetPassword Fixture.bcrypt_hash Fixture.alice_reset Fixture.db0))) as H
    by (vm_compute; reflexivity).
  destruct (reset_then_login_verified Fixture.cfg Fixture.bcrypt_compare Fixture.bcrypt_hash
              Fixture.clock Fixture.alice_reset Fixture.db0 _ _ "u1" "new-secret-11"
              Fixture.alice Hbcrypt Huniq eq_refl eq_refl Hu eq_refl eq_refl H)
    as (_ & Hlogin).
  split; [exact Hbcrypt|].
  split; [exact Huniq|].
  split; [exact Hu|].
  split; [reflexivity|].
  split; [exact H|exact Hlogin].
Defined.

(** C8, as stated, at a user who has not verified the email: bob resets the
    password with the token he holds and gets the 200; the stored password is
    the hash of the new one and [bcrypt.compare] accepts it; the login with
    bob's email and the new password is nevertheless refused with the 403 of
    the verification check, which comes before the comparison. *)
Lemma reset_then_login_unverified_refused :
  fst (resetPassword Fixture.bcrypt_hash Fixture.bob_reset Fixture.db0) = Fixture.reset_ok
  ∧ (password <$> users (snd (resetPassword Fixture.bcrypt_hash Fixture.bob_reset Fixture.db0)) !! "u2")
    = Some (Fixture.bcrypt_hash "new-secret-22")
  ∧ Fixture.bcrypt_compare "new-secret-22" (Fixture.bcrypt_hash "new-secret-22") = true
  ∧ fst (login Fixture.cfg Fixture.bcrypt_compare Fixture.clock
           {| cr_email := Some "bob@iti.eg"; cr_password := Some "new-secret-22" |}
           (snd (resetPassword Fixture.bcrypt_hash Fixture.bob_reset Fixture.db0)))
    = Next (AppError "Must verify email before logging in." 403).
Proof. repeat split; vm_compute; reflexivity. Qed.

(** ** Further properties of login and refresh *)

Section LoginRefreshMore.

Variable cfg : Config.
Variable bcrypt_compare : string → string → bool.

(** What a JSON answer of [login] says about the request and the database. *)
Lemma login_json_inv now req db s body db' :
  login cfg bcrypt_compare now req db = (Json s body, db') →
  ∃ e p u, req = {| cr_email := Some e; cr_password := Some p |}
           ∧ nonempty e = true ∧ nonempty p = true
           ∧ User_findOne e db = Resolved (Some u)
           ∧ emailVerified u = true
           ∧ bcrypt_compare p (password u) = true
           ∧ s = 200%Z ∧ body = token_pair cfg now u ∧ db' = db.
Proof.
  unfold login. intros H.
  destruct req as [[e|] [p|]]; cbn [cr_email cr_password truthy_str negb orb] in H;
    try (rewrite ?orb_true_r in H; simplify_eq).
  destruct (nonempty e) eqn:He; cbn [negb orb] in H; [|simplify_eq].
  destruct (nonempty p) eqn:Hp; cbn [negb orb] in H; [|simplify_eq].
  cbn [default from_option] in H. unfold id in H.
  destruct (User_findOne e db) as [[u|]|] eqn:Hfind; try simplify_eq.
  destruct (emailVerified u) eqn:Hver; cbn [negb] in H; [|simplify_eq].
  destruct (bcrypt_compare p (password u)) eqn:Hcmp; cbn [negb] in H; [|simplify_eq].
  injection H as <- <- <-.
  exists e, p, u. by repeat split.
Qed.

Lemma login_run now e p db :
  nonempty e = true → nonempty p = true →
  login cfg bcrypt_compare now {| cr_email := Some e; cr_password := Some p |} db
  = match User_findOne e db with
    | Rejected _ => (Next db_error, db)
    | Resolved None => (Next (AppError "Invalid email or password." 401), db)
    | Resolved (Some u) =>
        if negb (emailVerified u) then
          (Next (AppError "Must verify email before logging in." 403), db)
        else if negb (bcrypt_compare p (password u)) then
          (Next (AppError "Invalid email or password." 401), db)
        else (Json 200 (token_pair cfg now u), db)
    end.
Proof.
  intros He Hp. unfold login. cbn [cr_email cr_password truthy_str].
  by rewrite He, Hp.
Qed.

(** X1: [login] answers with JSON exactly when both credentials are
    non-empty, a user has that email, the email is verified and bcrypt
    accepts the password; the answer is then the 200 with an access and a
    refresh token of that user, and the database is the one it was given. *)
Theorem login_success_iff now req db s body db' :
  login cfg bcrypt_compare now req db = (Json s body, db')
  ↔ ∃ e p u, req = {| cr_email := Some e; cr_password := Some p |}
             ∧ nonempty e = true ∧ nonempty p = true
             ∧ User_findOne e db = Resolved (Some u)
             ∧ emailVerified u = true
             ∧ bcrypt_compare p (password u) = true
             ∧ s = 200%Z ∧ body = token_pair cfg now u ∧ db' = db.
Proof.
  split; [apply login_json_inv|].
  intros (e & p & u & -> & He & Hp & Hfind & Hver & Hcmp & -> & -> & ->).
  rewrite login_run by done. by rewrite Hfind, Hver, Hcmp.
Qed.

(** X2: for an account whose email is not verified, [login] answers the 403
    of the verification check whatever the password, right or wrong: the
    check comes before the comparison, so the reply does not tell whether the
    password was correct. *)
Theorem login_unverified_any_password now e p db u :
  nonempty e = true →
  nonempty p = true →
  User_findOne e db = Resolved (Some u) →
  emailVerified u = false →
  login cfg bcrypt_compare now {| cr_email := Some e; cr_password := Some p |} db
  = (Next (AppError "Must verify email before logging in." 403), db).
Proof.
  intros He Hp Hfind Hver. rewrite login_run by done. by rewrite Hfind, Hver.
Qed.

(** X3: [login] gives the same reply, the 401 "Invalid email or password.",
    to an email that no user has and to a wrong password for a verified
    user. *)
Theorem login_wrong_password_as_unknown_email now e e' p p' db u :
  nonempty e = true → nonempty p = true →
  nonempty e' = true → nonempty p' = true →
  User_findOne e db = Resolved None →
  User_findOne e' db = Resolved (Some u) →
  emailVerified u = true →
  bcrypt_compare p' (password u) = false →
  login cfg bcrypt_compare now {| cr_email := Some e; cr_password := Some p |} db
  = login cfg bcrypt_compare now {| cr_email := Some e'; cr_password := Some p' |} db
  ∧ login cfg bcrypt_compare now {| cr_email := Some e'; cr_password := Some p' |} db
    = (Next (AppError "Invalid email or password." 401), db).
Proof.
  intros He Hp He' Hp' Hnone Hsome Hver Hcmp.
  rewrite !login_run by done. by rewrite Hnone, Hsome, Hver, Hcmp.
Qed.



(** X5: [login], [loginMobile] and [refresh] only read: whatever the request
    and whatever the reply, the database they return is the one they were
    given. *)
Theorem login_and_refresh_do_not_write now req tok db :
  snd (login cfg bcrypt_compare now req db) = db
  ∧ snd (loginMobile cfg bcrypt_compare now req db) = db
  ∧ snd (refresh cfg now tok db) = db.
Proof.
  split; [|split].
  - unfold login. destruct (_ || _); [done|].
    destruct (User_findOne _ db) as [[u|]|]; try done.
    destruct (negb (emailVerified u)); [done|].
    by destruct (negb (bcrypt_compare _ _)).
  - unfold loginMobile. destruct (_ || _); [done|].
    destruct (User_findOne _ db) as [[u|]|]; try done.
    destruct (negb (emailVerified u)); [done|].
    destruct (negb (bcrypt_compare _ _)); [done|].
    destruct (is_Guest (role u)); [|done].
    destruct (EventAttendee_find_populate_event _ _); [|done].
    by destruct (negb _).
  - unfold refresh. destruct tok as [token|]; [|done].
    destruct (negb _); [done|].
    destruct (jwt_verify _ _ _); [|done].
    by destruct (User_findById _ _) as [[u|]|].
Qed.

(** X6: the current [login] and the one of the early controller differ on a
    request only when the user found has not verified the email: the early
    one then decides on the password alone, the current one answers the
    403. *)
Theorem login_differs_from_early_only_on_unverified now req db :
  login cfg bcrypt_compare now req db = EarlyAuth.login cfg bcrypt_compare now req db
  ∨ ∃ e u, cr_email req = Some e
           ∧ User_findOne e db = Resolved (Some u)
           ∧ emailVerified u = false
           ∧ login cfg bcrypt_compare now req db
             = (Next (AppError "Must verify email before logging in." 403), db).
Proof.
  unfold login, EarlyAuth.login.
  destruct (_ || _) eqn:Hmiss; [by left|].
  destruct req as [[e|] p]; [|discriminate Hmiss].
  cbn [cr_email cr_password default from_option]. unfold id.
  destruct (User_findOne e db) as [[u|]|] eqn:Hfind; try by left.
  destruct (emailVerified u) eqn:Hver; cbn [negb].
  - by left.
  - right. exists e, u. by rewrite Hfind.
Qed.

End LoginRefreshMore.

(** ** Further properties of verification and password reset *)

Lemma alter_absent {A} (f : A → A) (k : string) (m : gmap string A) :
  m !! k = None → alter f k m = m.
Proof.
  intros Hk. apply map_eq. intros i.
  destruct (decide (i = k)) as [->|Hne].
  - by rewrite lookup_alter_eq, Hk.
  - by rewrite lookup_alter_ne.
Qed.

Lemma set_users_alter_absent f id db :
  users db !! id = None → set_users (alter f id) db = db.
Proof.
  intros Hk. destruct db as [us ts ats evs]. unfold set_users. cbn in *.
  by rewrite alter_absent.
Qed.

Lemma verify_run token uid db :
  nonempty token = true → nonempty uid = true →
  verify {| vq_token := Some token; vq_id := Some uid |} db
  = match List.find (token_matches uid token) (userTokens db) with
    | None => (Next (AppError "Invalid or expired verification link." 400), db)
    | Some _ =>
        match users db !! uid with
        | None => (Next (NotFoundError "User not found."), db)
        | Some _ => (Json 200 [("message", RStr "Email verified successfully.")],
                     set_users (alter (set_emailVerified true) uid) db)
        end
    end.
Proof.
  intros Ht Hi. unfold verify, UserToken_findOne, User_findByIdAndUpdate.
  cbn [vq_token vq_id truthy_str]. rewrite Ht, Hi. cbn [negb orb default from_option].
  unfold id. destruct (List.find _ _); [|done].
  destruct (users db !! uid) eqn:Hu; [done|].
  by rewrite set_users_alter_absent.
Qed.

Lemma verify_missing req db :
  truthy_str (vq_token req) && truthy_str (vq_id req) = false →
  verify req db = (Next (AppError "Invalid verification link." 400), db).
Proof.
  intros H. unfold verify.
  by destruct (truthy_str (vq_token req)), (truthy_str (vq_id req)).
Qed.

Lemma verify_cases req db :
  verify req db = (Next (AppError "Invalid verification link." 400), db)
  ∨ verify req db = (Next (AppError "Invalid or expired verification link." 400), db)
  ∨ verify req db = (Next (NotFoundError "User not found."), db)
  ∨ ∃ uid, verify req db
           = (Json 200 [("message", RStr "Email verified successfully.")],
              set_users (alter (set_emailVerified true) uid) db).
Proof.
  destruct (truthy_str (vq_token req) && truthy_str (vq_id req)) eqn:Hreq.
  - apply andb_true_iff in Hreq as [Ht Hi].
    destruct req as [[token|] [uid|]]; try discriminate.
    cbn in Ht, Hi. rewrite verify_run by done.
    destruct (List.find _ _); [|by right; left].
    destruct (users db !! uid); [|by right; right; left].
    right; right; right. by exists uid.
  - left. by apply verify_missing.
Qed.


Lemma verify_success req db s body db' :
  verify req db = (Json s body, db') →
  ∃ token uid t u,
    req = {| vq_token := Some token; vq_id := Some uid |}
    ∧ nonempty token = true ∧ nonempty uid = true
    ∧ List.find (token_matches uid token) (userTokens db) = Some t
    ∧ users db !! uid = Some u
    ∧ s = 200%Z
    ∧ db' = set_users (alter (set_emailVerified true) uid) db.
Proof.
  intros H.
  destruct (truthy_str (vq_token req) && truthy_str (vq_id req)) eqn:Hreq.
  - apply andb_true_iff in Hreq as [Ht Hi].
    destruct req as [[token|] [uid|]]; try discriminate.
    cbn in Ht, Hi. rewrite verify_run in H by done.
    destruct (List.find _ _) as [t|] eqn:Hfind; [|discriminate].
    destruct (users db !! uid) as [u|] eqn:Hu; [|discriminate].
    injection H as <- _ <-. exists token, uid, t, u. by repeat split.
  - rewrite verify_missing in H by done. discriminate.
Qed.

Lemma verify_db req db :
  snd (verify req db) = db
  ∨ ∃ uid, snd (verify req db) = set_users (alter (set_emailVerified true) uid) db.
Proof.
  destruct (verify_cases req db) as [->|[->|[->|[uid ->]]]]; try by left.
  right. by exists uid.
Qed.

Lemma nonempty_of_length (s : string) :
  (0 < String.length s)%nat → nonempty s = true.
Proof. destruct s; cbn; [lia|done]. Qed.

Lemma NoDup_fmap_remove_first {A B} (g : A → B) (p : A → bool) (l : list A) :
  NoDup (g <$> l) → NoDup (g <$> remove_first p l).
Proof.
  induction l as [|x l IH]; cbn; [done|].
  intros Hnd. apply NoDup_cons in Hnd as [Hx Hnd].
  destruct (p x); [done|]. cbn. apply NoDup_cons. split; [|by apply IH].
  intros Hin. apply Hx.
  apply list_elem_of_fmap in Hin as (y & -> & Hy).
  apply list_elem_of_fmap_2. by eapply elem_of_remove_first.
Qed.

Lemma ids_consistent_alter f uid db :
  (∀ u, _id (f u) = _id u) → ids_consistent db →
  ids_consistent (set_users (alter f uid) db).
Proof.
  intros Hf Hids k u. cbn.
  destruct (decide (k = uid)) as [->|Hne].
  - rewrite lookup_alter_eq. destruct (users db !! uid) as [u0|] eqn:Hu; [|done].
    intros [= <-]. rewrite Hf. by apply Hids.
  - rewrite lookup_alter_ne by done. apply Hids.
Qed.

Section VerifyResetMore.

Variable cfg : Config.
Variable bcrypt_compare : string → string → bool.
Variable bcrypt_hash : string → string.

Lemma resetPassword_run uid token np db :
  nonempty uid = true → nonempty token = true →
  (8 ≤ Z.of_nat (String.length np) ≤ 25)%Z →
  resetPassword bcrypt_hash
    {| rb_id := Some uid; rb_token := Some token; rb_newPassword := Some np |} db
  = match List.find (token_matches uid token) (userTokens db) with
    | None => (Next (AppError "Invalid or expired token." 400), db)
    | Some _ =>
        match users db !! uid with
        | None => (Next (NotFoundError "User not found."), db)
        | Some _ =>
            (Json 200 [("message", RStr "Password reset successfully.")],
             UserToken_deleteOne uid token
               (set_users (alter (User_writePassword bcrypt_hash np) uid) db))
        end
    end.
Proof.
  intros Hi Ht Hlen.
  assert (nonempty np = true) as Hn by (apply nonempty_of_length; lia).
  unfold resetPassword, UserToken_findOne, User_findByIdAndUpdate.
  cbn [rb_id rb_token rb_newPassword truthy_str]. rewrite Hi, Ht, Hn.
  cbn [negb orb default from_option]. unfold id.
  assert ((Z.of_nat (String.length np) <? 8)%Z = false) as -> by lia.
  assert ((Z.of_nat (String.length np) >? 25)%Z = false) as -> by lia.
  cbn [orb]. destruct (List.find _ _); [|done].
  destruct (users db !! uid) eqn:Hu; [done|]. cbn.
  by rewrite set_users_alter_absent.
Qed.

Lemma resetPassword_cases req db :
  (∃ msg, resetPassword bcrypt_hash req db = (Next (AppError msg 400), db))
  ∨ (∃ msg, resetPassword bcrypt_hash req db = (Next (AppError msg 422), db))
  ∨ resetPassword bcrypt_hash req db = (Next (NotFoundError "User not found."), db)
  ∨ ∃ uid token np,
      resetPassword bcrypt_hash req db
      = (Json 200 [("message", RStr "Password reset successfully.")],
         UserToken_deleteOne uid token
           (set_users (alter (User_writePassword bcrypt_hash np) uid) db)).
Proof.
  destruct req as [ouid otok onp].
  destruct (truthy_str ouid && truthy_str otok && truthy_str onp) eqn:Hreq.
  - apply andb_true_iff in Hreq as [Hreq Hn]. apply andb_true_iff in Hreq as [Hi Ht].
    destruct ouid as [uid|], otok as [token|], onp as [np|]; try discriminate.
    cbn in Hi, Ht, Hn.
    destruct (decide (8 ≤ Z.of_nat (String.length np) ≤ 25)%Z) as [Hlen|Hlen].
    + rewrite resetPassword_run by done.
      destruct (List.find _ _); [|left; by eexists].
      destruct (users db !! uid); [|by right; right; left].
      right; right; right. by exists uid, token, np.
    + unfold resetPassword. cbn [rb_id rb_token rb_newPassword truthy_str].
      rewrite Hi, Ht, Hn. cbn [negb orb default from_option]. unfold id.
      assert ((Z.of_nat (String.length np) <? 8)%Z || (Z.of_nat (String.length np) >? 25)%Z
              = true) as ->.
      { apply orb_true_iff. lia. }
      right; left. by eexists.
  - unfold resetPassword. cbn [rb_id rb_token rb_newPassword].
    assert (negb (truthy_str ouid) || negb (truthy_str otok) || negb (truthy_str onp) = true)
      as -> by by destruct (truthy_str ouid), (truthy_str otok), (truthy_str onp).
    left. by eexists.
Qed.


(** X9: verification is what opens [login]: for a user whose email is not
    verified and who knows the password, [login] answers the 403 before a
    successful [verify] of that user and the 200 with both tokens after
    it. *)
Theorem verify_enables_login now req db body db' uid u p :
  unique_emails db →
  verify req db = (Json 200 body, db') →
  vq_id req = Some uid →
  users db !! uid = Some u →
  emailVerified u = false →
  nonempty (email u) = true →
  nonempty p = true →
  bcrypt_compare p (password u) = true →
  login cfg bcrypt_compare now {| cr_email := Some (email u); cr_password := Some p |} db
  = (Next (AppError "Must verify email before logging in." 403), db)
  ∧ login cfg bcrypt_compare now {| cr_email := Some (email u); cr_password := Some p |} db'
    = (Json 200 (token_pair cfg now (set_emailVerified true u)), db').
Proof.
  intros Huniq H Hid Hu Hver He Hp Hcmp.
  apply verify_success in H as (token & uid' & t & u' & -> & _ & _ & _ & _ & _ & ->).
  cbn in Hid. injection Hid as ->.
  pose proof (unique_emails_distinct db Huniq) as Hdist.
  rewrite !login_run by done. unfold User_findOne. split.
  - rewrite (findOne_by_email _ uid u Hdist Hu). by rewrite Hver.
  - change (email u) with (email (set_emailVerified true u)) at 1.
    rewrite (findOne_by_email _ uid (set_emailVerified true u)).
    + cbn. by rewrite Hcmp.
    + by apply emails_distinct_alter.
    + cbn. by rewrite lookup_alter_eq, Hu.
Qed.

(** X10: a token document has no purpose attached: the (id, token) pair
    that [verify] has just accepted is also accepted by [resetPassword], which
    answers 200 for any new password of 8 to 25 characters and removes the
    token document. *)
Theorem verification_token_resets_password req db body db' uid token np :
  verify req db = (Json 200 body, db') →
  vq_id req = Some uid →
  vq_token req = Some token →
  (8 ≤ Z.of_nat (String.length np) ≤ 25)%Z →
  let reset := resetPassword bcrypt_hash
                 {| rb_id := Some uid; rb_token := Some token; rb_newPassword := Some np |} db' in
  fst reset = Json 200 [("message", RStr "Password reset successfully.")]
  ∧ userTokens (snd reset) = remove_first (token_matches uid token) (userTokens db).
Proof.
  intros H Hid Htok Hlen reset. subst reset.
  apply verify_success in H as (token' & uid' & t & u & -> & Ht & Hi & Hfind & Hu & _ & ->).
  cbn in Hid, Htok. injection Hid as ->. injection Htok as ->.
  rewrite resetPassword_run by done.
  cbn [userTokens set_users users]. rewrite Hfind, lookup_alter_eq, Hu. cbn.
  by split.
Qed.

(** X11: a token spent on a password reset no longer verifies: with token
    documents keyed by (userId, token), after a reset that answers 200 the
    same pair gets the 400 of [verify], which writes nothing. *)
Theorem reset_token_no_longer_verifies req db body db' uid token :
  tokens_keyed db →
  resetPassword bcrypt_hash req db = (Json 200 body, db') →
  rb_id req = Some uid →
  rb_token req = Some token →
  verify {| vq_token := Some token; vq_id := Some uid |} db'
  = (Next (AppError "Invalid or expired verification link." 400), db').
Proof.
  intros Hkeyed H Hid Htok.
  apply resetPassword_success in H
    as (uid' & token' & np & t & u & -> & Hi & Ht & _ & _ & _ & _ & ->).
  cbn in Hid, Htok. injection Hid as ->. injection Htok as ->.
  rewrite verify_run by done. cbn [userTokens UserToken_deleteOne set_userTokens set_users].
  rewrite find_None_intro; [done|].
  apply (remove_first_no_match token_key (uid, token)); [|done].
  intros x. apply token_matches_key.
Qed.

(** X12: [verify] and [resetPassword] keep the invariants of the store:
    every user under its own id, distinct emails, token documents keyed by
    (userId, token). *)
Theorem verify_and_reset_keep_store_ok vreq rreq db :
  store_ok db →
  store_ok (snd (verify vreq db)) ∧ store_ok (snd (resetPassword bcrypt_hash rreq db)).
Proof.
  intros (Hids & Hemails & Hkeyed). split.
  - destruct (verify_db vreq db) as [->|[uid ->]]; [done|].
    split; [by apply ids_consistent_alter|]. split; [|done].
    by apply emails_distinct_alter.
  - destruct (resetPassword_cases rreq db)
      as [[msg ->]|[[msg ->]|[->|(uid & token & np & ->)]]]; try done.
    split; [by apply ids_consistent_alter|]. split.
    + by apply emails_distinct_alter.
    + unfold tokens_keyed. cbn. by apply NoDup_fmap_remove_first.
Qed.

End VerifyResetMore.

(** ** Properties of the forgotten-password request *)

Lemma findOne_None_iff e db :
  User_findOne e db = Resolved None ↔ ∀ k u, users db !! k = Some u → email u ≠ e.
Proof.
  unfold User_findOne. split.
  - intros [= H] k u Hk He.
    destruct (List.find _ _) as [kv|] eqn:Hfind; [done|].
    assert (In (k, u) (map_to_list (users db))) as Hin
      by by apply list_elem_of_In, elem_of_map_to_list.
    pose proof (find_none _ _ Hfind (k, u) Hin) as Hfalse. cbn in Hfalse.
    apply String.eqb_neq in Hfalse. done.
  - intros H. rewrite find_None_intro; [done|].
    intros [k u] Hin. apply elem_of_map_to_list in Hin. cbn.
    apply String.eqb_neq. by eapply H.
Qed.

Section ForgotPasswordProperties.

Variable sendResetPasswordEmail : string → string → DB → Promise unit * DB.

(** X13: for a non-empty email, [forgotPassword] answers the NotFound error
    "No user found with that email address." exactly when no stored user has
    that email, and then leaves the database as it was: the reply tells
    whether an account exists. *)
Theorem forgotPassword_not_found_iff e db :
  nonempty e = true →
  (fst (forgotPassword sendResetPasswordEmail (Some e) db)
   = Next (NotFoundError "No user found with that email address.")
   ↔ ∀ k u, users db !! k = Some u → email u ≠ e)
  ∧ ((∀ k u, users db !! k = Some u → email u ≠ e) →
     snd (forgotPassword sendResetPasswordEmail (Some e) db) = db).
Proof.
  intros He. unfold forgotPassword. cbn [truthy_str]. rewrite He.
  cbn [negb default from_option]. unfold id. split; [split|].
  - intros H. apply findOne_None_iff.
    destruct (User_findOne e db) as [[u|]|]; [|done|discriminate].
    by destruct (sendResetPasswordEmail _ _ _) as [[[]|err] db1].
  - intros H. apply findOne_None_iff in H. by rewrite H.
  - intros H. apply findOne_None_iff in H. by rewrite H.
Qed.

(** X14: for a stored user, verified or not, [forgotPassword] with the
    user's email runs the email service with that user's id and email; its
    rejection is handed to [next], its success answers 200, and the database
    is the one the service leaves. *)
Theorem forgotPassword_mails_stored_user db k u :
  unique_emails db →
  users db !! k = Some u →
  nonempty (email u) = true →
  forgotPassword sendResetPasswordEmail (Some (email u)) db
  = match sendResetPasswordEmail (_id u) (email u) db with
    | (Rejected emailError, db1) => (Next (Forwarded emailError), db1)
    | (Resolved _, db1) =>
        (Json 200 [("message", RStr "Password reset email sent successfully.")], db1)
    end.
Proof.
  intros Huniq Hk He. unfold forgotPassword. cbn [truthy_str]. rewrite He.
  cbn [negb default from_option]. unfold id, User_findOne.
  by rewrite (findOne_by_email _ k u (unique_emails_distinct db Huniq) Hk).
Qed.

End ForgotPasswordProperties.

(** ** Further properties of registration *)

Lemma requiredError_existsb errors :
  match requiredError errors with Some _ => true | None => false end
  = existsb (λ err : string * string, String.eqb (snd err) "required") errors.
Proof.
  unfold requiredError. induction errors as [|err errors IH]; cbn; [done|].
  by destruct (String.eqb (snd err) "required").
Qed.

Section RegisterMore.

Variable cfg : Config.
Variable User_create : Body → DB → Promise User * DB.
Variable sendVerifyEmail : string → string → DB → Promise unit * DB.

(** X15: [register] answers with JSON exactly when the password check
    passes, [User.create] resolves and the verification email is sent; the
    answer is then the 201 with the new user and an access and a refresh
    token of that user, and the database is the one the email service
    leaves. *)
Theorem register_created_iff now body db s reply_body db' :
  register cfg User_create sendVerifyEmail now body db = (Json s reply_body, db')
  ↔ ∃ newUser db1,
      password_out_of_range (strip_overrides body) = Normal false
      ∧ User_create (strip_overrides body) db = (Resolved newUser, db1)
      ∧ sendVerifyEmail (_id newUser) (email newUser) db1 = (Resolved (), db')
      ∧ s = 201%Z
      ∧ reply_body = [("user", RUser newUser);
                      ("accessToken", RTok (generateAccessToken cfg now newUser));
                      ("refreshToken", RTok (generateRefreshToken cfg now newUser))].
Proof.
  unfold register. split.
  - intros H.
    destruct (password_out_of_range _) as [[|]|] eqn:Hpw; try discriminate.
    destruct (User_create _ db) as [[newUser|error] db1] eqn:Hcreate.
    + destruct (sendVerifyEmail _ _ db1) as [[[]|err] db2] eqn:Hmail; [|discriminate].
      injection H as <- <- <-. by exists newUser, db1.
    + destruct error as [errors|code msg|msg].
      * by destruct (requiredError errors).
      * by destruct (code =? 11000)%Z.
      * discriminate.
  - intros (newUser & db1 & Hpw & Hcreate & Hmail & -> & ->).
    by rewrite Hpw, Hcreate, Hmail.
Qed.

(** X16: when [User.create] rejects, [register] does not run the email
    service (the database is the one [User.create] leaves) and picks the
    status from the error: 400 for a validation error with a path of kind
    "required", 422 for any other validation error, 409 for the code 11000,
    500 otherwise. *)
Theorem register_create_rejected now body db error db1 :
  password_out_of_range (strip_overrides body) = Normal false →
  User_create (strip_overrides body) db = (Rejected error, db1) →
  snd (register cfg User_create sendVerifyEmail now body db) = db1
  ∧ reply_status (fst (register cfg User_create sendVerifyEmail now body db))
    = Some (match error with
            | ValidationError errors =>
                if existsb (λ err : string * string, String.eqb (snd err) "required") errors
                then 400 else 422
            | CodedError code _ => if (code =? 11000)%Z then 409 else 500
            | PlainError _ => 500
            end)%Z.
Proof.
  intros Hpw Hcreate. unfold register. rewrite Hpw, Hcreate.
  destruct error as [errors|code msg|msg].
  - rewrite <- requiredError_existsb. by destruct (requiredError errors).
  - by destruct (code =? 11000)%Z.
  - done.
Qed.

End RegisterMore.

(** ** Further properties of the attendee service *)

Lemma find_update_first_same {A} (p : A → bool) (f : A → A) (l : list A) :
  (∀ x, p (f x) = p x) → List.find p (update_first p f l) = f <$> List.find p l.
Proof.
  intros Hf. induction l as [|x l IH]; cbn; [done|].
  destruct (p x) eqn:Hp; cbn.
  - by rewrite Hf, Hp.
  - by rewrite Hp.
Qed.

Lemma find_update_first_other {A} (p q : A → bool) (f : A → A) (l : list A) :
  (∀ x, q (f x) = q x) → (∀ x, p x = true → q x = false) →
  List.find q (update_first p f l) = List.find q l.
Proof.
  intros Hf Hpq. induction l as [|x l IH]; cbn; [done|].
  destruct (p x) eqn:Hp; cbn.
  - by rewrite Hf, (Hpq x Hp).
  - by rewrite IH.
Qed.

Lemma update_first_absent {A} (p : A → bool) (f : A → A) (l : list A) :
  List.find p l = None → update_first p f l = l.
Proof.
  induction l as [|x l IH]; cbn; [done|].
  destruct (p x); [done|]. intros H. by rewrite IH.
Qed.

Lemma update_first_twice {A} (p : A → bool) (f g : A → A) (l : list A) :
  (∀ x, p (g x) = p x) →
  update_first p f (update_first p g l) = update_first p (f ∘ g) l.
Proof.
  intros Hg. induction l as [|x l IH]; cbn; [done|].
  destruct (p x) eqn:Hp; cbn.
  - by rewrite Hg, Hp.
  - by rewrite Hp, IH.
Qed.

Lemma find_remove_first_other {A} (p q : A → bool) (l : list A) :
  (∀ x, p x = true → q x = false) →
  List.find q (remove_first p l) = List.find q l.
Proof.
  intros Hpq. induction l as [|x l IH]; cbn; [done|].
  destruct (p x) eqn:Hp; cbn.
  - by rewrite (Hpq x Hp).
  - by rewrite IH.
Qed.

Lemma remove_first_absent {A} (p : A → bool) (l : list A) :
  List.find p l = None → remove_first p l = l.
Proof.
  induction l as [|x l IH]; cbn; [done|].
  destruct (p x); [done|]. intros H. by rewrite IH.
Qed.

Lemma length_remove_first {A} (p : A → bool) (l : list A) x :
  List.find p l = Some x → S (length (remove_first p l)) = length l.
Proof.
  induction l as [|y l IH]; cbn; [done|].
  destruct (p y); [done|]. intros H. cbn. by rewrite IH.
Qed.

Lemma find_None_absent {A} (p : A → bool) (l : list A) :
  List.find p l = None ↔ ∀ x, x ∈ l → p x = false.
Proof.
  split; [|apply find_None_intro].
  intros H x Hx. apply (find_none _ _ H). by apply list_elem_of_In.
Qed.

Lemma set_attendees_fixed f db :
  f (attendees db) = attendees db → set_attendees f db = db.
Proof. destruct db. unfold set_attendees. cbn. by intros ->. Qed.

Lemma set_attendees_twice f g h db :
  f (g (attendees db)) = h (attendees db) →
  set_attendees f (set_attendees g db) = set_attendees h db.
Proof. destruct db. unfold set_attendees. cbn. by intros ->. Qed.

Section AttendeeMore.
Import AttendeeService.

Lemma approval_filter_Some b a :
  approval_filter (Some b) a = true ↔ isApproved a = Some b.
Proof.
  unfold approval_filter. destruct (isApproved a) as [b'|]; [|done].
  destruct b, b'; cbn; split; intros H; done || congruence.
Qed.

Lemma hit_other id id' a : id ≠ id' → hit id a = true → hit id' a = false.
Proof.
  unfold hit. intros Hne H. apply String.eqb_eq in H. apply String.eqb_neq. congruence.
Qed.

Lemma filter_no_filter (l : list EventAttendee) :
  List.filter (approval_filter None) l = l.
Proof. induction l as [|a l IH]; [done|]. cbn. by rewrite IH. Qed.

(** X17: without a filter [getAllAttendees] returns every attendee document,
    in the order of the collection; with the filter [b] it returns exactly
    the documents whose [isApproved] is [b], so an attendee without an
    [isApproved] value is in neither filtered listing. *)
Theorem getAllAttendees_listing db :
  doc <$> getAllAttendees None db = attendees db
  ∧ (∀ b a, a ∈ doc <$> getAllAttendees (Some b) db
            ↔ a ∈ attendees db ∧ isApproved a = Some b)
  ∧ (∀ b a, isApproved a = None → a ∉ doc <$> getAllAttendees (Some b) db).
Proof.
  assert (∀ flt, doc <$> getAllAttendees flt db
                 = List.filter (approval_filter flt) (attendees db)) as Hdocs.
  { intros flt. unfold getAllAttendees, EventAttendee_find.
    rewrite <- !list_fmap_compose.
    induction (List.filter _ _) as [|a l IH]; cbn; [done|]. by rewrite IH. }
  assert (∀ b a, a ∈ doc <$> getAllAttendees (Some b) db
                 ↔ a ∈ attendees db ∧ isApproved a = Some b) as Hiff.
  { intros b a. rewrite Hdocs, list_elem_of_In, filter_In, <- list_elem_of_In.
    by rewrite approval_filter_Some. }
  split; [|split; [exact Hiff|]].
  - rewrite Hdocs. apply filter_no_filter.
  - intros b a Hnone Hin. apply Hiff in Hin as [_ Hb]. congruence.
Qed.

(** X18: after an approve or reject that returns an attendee, reading that
    id returns the same joined view, with the new [isApproved]; reading any
    other id returns what it returned before. *)
Theorem update_then_get id b db v db' :
  updateAttendeeApprovalStatus id b db = (Some v, db') →
  getAttendeeById id db' = Some v
  ∧ isApproved (doc v) = Some b
  ∧ att_id (doc v) = id
  ∧ (∀ id', id' ≠ id → getAttendeeById id' db' = getAttendeeById id' db).
Proof.
  unfold updateAttendeeApprovalStatus, EventAttendee_findByIdAndUpdate, getAttendeeById,
    EventAttendee_findById.
  fold (hit id). intros H.
  destruct (List.find (hit id) (attendees db)) as [a|] eqn:Hfind; [|discriminate].
  cbn in H. injection H as <- <-. cbn.
  split; [|split; [done|split]].
  - rewrite find_update_first_same by done. by rewrite Hfind.
  - apply find_some in Hfind as [_ Hhit]. by apply String.eqb_eq.
  - intros id' Hne. fold (hit id').
    rewrite find_update_first_other; [done|done|].
    intros x. by apply hit_other.
Qed.

(** X19: an approve or reject returns nothing exactly when no attendee has
    that id, and then the database is unchanged: the update never inserts. *)
Theorem update_unknown_attendee id b db :
  (fst (updateAttendeeApprovalStatus id b db) = None
   ↔ ∀ a, a ∈ attendees db → att_id a ≠ id)
  ∧ ((∀ a, a ∈ attendees db → att_id a ≠ id) →
     updateAttendeeApprovalStatus id b db = (None, db)).
Proof.
  assert ((∀ a, a ∈ attendees db → att_id a ≠ id)
          ↔ List.find (hit id) (attendees db) = None) as Hiff.
  { rewrite find_None_absent. unfold hit.
    split; intros H a Ha; apply String.eqb_neq; by apply H. }
  unfold updateAttendeeApprovalStatus, EventAttendee_findByIdAndUpdate. fold (hit id).
  split.
  - rewrite Hiff. by destruct (List.find _ _).
  - intros H. apply Hiff in H. rewrite H. cbn.
    f_equal. apply set_attendees_fixed. by apply update_first_absent.
Qed.

(** X20: with distinct attendee ids, a deletion that returns a document
    removes exactly that attendee: reading the id afterwards returns nothing,
    the collection is one document shorter, and every other id reads as
    before.  Deleting an id that no attendee has returns nothing and leaves
    the database unchanged. *)
Theorem delete_then_get id db :
  attendee_ids_distinct db →
  (∀ v db', deleteAttendeeById id db = (Some v, db') →
      getAttendeeById id db' = None
      ∧ doc v ∈ attendees db ∧ att_id (doc v) = id
      ∧ S (length (attendees db')) = length (attendees db)
      ∧ (∀ id', id' ≠ id → getAttendeeById id' db' = getAttendeeById id' db))
  ∧ ((∀ a, a ∈ attendees db → att_id a ≠ id) → deleteAttendeeById id db = (None, db)).
Proof.
  intros Hdistinct.
  unfold deleteAttendeeById, EventAttendee_findByIdAndDelete, getAttendeeById,
    EventAttendee_findById.
  fold (hit id). split.
  - intros v db' H.
    destruct (List.find (hit id) (attendees db)) as [a|] eqn:Hfind; [|discriminate].
    cbn in H. injection H as <- <-. cbn.
    pose proof (find_some _ _ Hfind) as [Hin Hhit].
    split; [|split; [by apply list_elem_of_In|split; [by apply String.eqb_eq|split]]].
    + rewrite find_None_intro; [done|].
      apply (remove_first_no_match att_id id); [|done].
      intros x. unfold hit. apply String.eqb_eq.
    + by eapply length_remove_first.
    + intros id' Hne. fold (hit id').
      rewrite find_remove_first_other; [done|]. intros x. by apply hit_other.
  - intros H.
    assert (List.find (hit id) (attendees db) = None) as Hnone.
    { apply find_None_absent. intros a Ha. apply String.eqb_neq. by apply H. }
    rewrite Hnone. cbn. f_equal. apply set_attendees_fixed. by apply remove_first_absent.
Qed.

(** X21: the last decision wins: approving or rejecting an attendee and then
    deciding again gives the reply and the database of the second decision
    alone. *)
Theorem update_last_decision_wins id b1 b2 db :
  updateAttendeeApprovalStatus id b2 (snd (updateAttendeeApprovalStatus id b1 db))
  = updateAttendeeApprovalStatus id b2 db.
Proof.
  unfold updateAttendeeApprovalStatus, EventAttendee_findByIdAndUpdate. fold (hit id).
  cbn. rewrite find_update_first_same by done.
  rewrite (set_attendees_twice _ _ (update_first (hit id) (set_isApproved b2))).
  - by destruct (List.find (hit id) (attendees db)) as [a|].
  - rewrite update_first_twice by done.
    induction (attendees db) as [|a l IH]; cbn; [done|].
    destruct (hit id a); [done|]. by rewrite IH.
Qed.

End AttendeeMore.

(** ** Properties of the attendee routes *)

Section RouteProperties.
Import Routes.

(** X22: whatever the method and the path, the route that takes a request
    runs [authenticateUser] and then [isAdmin] before its handler: no
    attendee handler is reachable without both. *)
Theorem every_route_is_admin_gated m path r :
  dispatch m path = Some r → middlewares r = [authenticateUser; isAdmin].
Proof.
  unfold dispatch. intros H. apply find_some in H as [Hin _].
  unfold router in Hin. cbn in Hin.
  destruct Hin as [<-|[<-|[<-|[<-|[<-|[<-|[]]]]]]]; reflexivity.
Qed.



End RouteProperties.

(** ** Properties of the upload middleware *)

Section UploadProperties.
Import Upload.

(** X25: [parseFormWithSingleImage] calls [next] without an argument exactly
    when multer reports no error; an error with the code LIMIT_FILE_SIZE
    becomes a validation error keyed by the uploaded file's field name, or by
    the configured field name ("image" by default) when there is no file; an
    error with another code than the two it knows is passed on as it is. *)
Theorem upload_errors_reach_next fieldName_arg file_fieldname err :
  (parseFormWithSingleImage fieldName_arg file_fieldname err = PassOn ↔ err = None)
  ∧ (∀ e, err = Some e → code_is "LIMIT_FILE_SIZE" e = true →
       parseFormWithSingleImage fieldName_arg file_fieldname err
       = FailValidation "Image size exceeded 10MB limit"
           [(match file_fieldname with
             | Some f => if nonempty f then f else default "image" fieldName_arg
             | None => default "image" fieldName_arg
             end, "Image size exceeded 10MB limit")])
  ∧ (∀ e, err = Some e →
       (parseFormWithSingleImage fieldName_arg file_fieldname err = FailWith e
        ↔ code_is "LIMIT_FILE_SIZE" e = false ∧ code_is "LIMIT_UNEXPECTED_FILE" e = false)).
Proof.
  unfold parseFormWithSingleImage. split; [|split].
  - destruct err as [e|]; [|done].
    split; [|done]. intros H.
    destruct (code_is "LIMIT_FILE_SIZE" e); [discriminate|].
    destruct (code_is "LIMIT_UNEXPECTED_FILE" e); discriminate.
  - intros e -> Hsize. rewrite Hsize.
    destruct file_fieldname as [f|]; [|done]. cbn. by destruct (nonempty f).
  - intros e ->. split.
    + intros H. destruct (code_is "LIMIT_FILE_SIZE" e); [discriminate|].
      destruct (code_is "LIMIT_UNEXPECTED_FILE" e); [discriminate|done].
    + intros [-> ->]. done.
Qed.

End UploadProperties.

(** ** The further properties at the sample deployment *)

Lemma ids_consistent_of_list db :
  Forall (λ kv : string * User, _id (snd kv) = fst kv) (map_to_list (users db)) →
  ids_consistent db.
Proof.
  intros H k u Hk. rewrite Forall_forall in H.
  apply (H (k, u)). by apply elem_of_map_to_list.
Qed.

Lemma sample_ids_consistent : ids_consistent Fixture.db0.
Proof. apply ids_consistent_of_list, (bool_decide_unpack _). vm_compute. reflexivity. Qed.

Lemma sample_unique_emails : unique_emails Fixture.db0.
Proof. unfold unique_emails. apply (bool_decide_unpack _). vm_compute. reflexivity. Qed.

Lemma sample_tokens_keyed : tokens_keyed Fixture.db0.
Proof. unfold tokens_keyed. apply (bool_decide_unpack _). vm_compute. reflexivity. Qed.

Lemma login_unverified_any_password_witness :
  User_findOne "bob@iti.eg" Fixture.db0 = Resolved (Some Fixture.bob)
  ∧ emailVerified Fixture.bob = false
  ∧ login Fixture.cfg Fixture.bcrypt_compare Fixture.clock
      {| cr_email := Some "bob@iti.eg"; cr_password := Some "old-secret-2" |} Fixture.db0
    = (Next (AppError "Must verify email before logging in." 403), Fixture.db0).
Proof.
  assert (User_findOne "bob@iti.eg" Fixture.db0 = Resolved (Some Fixture.bob)) as Hfind
    by (vm_compute; reflexivity).
  split; [exact Hfind|]. split; [reflexivity|].
  exact (login_unverified_any_password Fixture.cfg Fixture.bcrypt_compare Fixture.clock
           "bob@iti.eg" "old-secret-2" Fixture.db0 Fixture.bob eq_refl eq_refl Hfind eq_refl).
Defined.

Lemma login_wrong_password_as_unknown_email_witness :
  User_findOne "nobody@iti.eg" Fixture.db0 = Resolved None
  ∧ User_findOne "alice@iti.eg" Fixture.db0 = Resolved (Some Fixture.alice)
  ∧ Fixture.bcrypt_compare "not-her-password" (password Fixture.alice) = false
  ∧ login Fixture.cfg Fixture.bcrypt_compare Fixture.clock
      {| cr_email := Some "nobody@iti.eg"; cr_password := Some "anything-1" |} Fixture.db0
    = login Fixture.cfg Fixture.bcrypt_compare Fixture.clock
        {| cr_email := Some "alice@iti.eg"; cr_password := Some "not-her-password" |} Fixture.db0.
Proof.
  assert (User_findOne "nobody@iti.eg" Fixture.db0 = Resolved None) as Hnone
    by (vm_compute; reflexivity).
  assert (User_findOne "alice@iti.eg" Fixture.db0 = Resolved (Some Fixture.alice)) as Hsome
    by (vm_compute; reflexivity).
  assert (Fixture.bcrypt_compare "not-her-password" (password Fixture.alice) = false) as Hcmp
    by (vm_compute; reflexivity).
  split; [exact Hnone|]. split; [exact Hsome|]. split; [exact Hcmp|].
  exact (proj1 (login_wrong_password_as_unknown_email Fixture.cfg Fixture.bcrypt_compare
                  Fixture.clock "nobody@iti.eg" "alice@iti.eg" "anything-1" "not-her-password"
                  Fixture.db0 Fixture.alice eq_refl eq_refl eq_refl eq_refl
                  Hnone Hsome eq_refl Hcmp)).
Defined.


Lemma verify_enables_login_witness :
  unique_emails Fixture.db0
  ∧ verify Fixture.bob_verify Fixture.db0
    = (Json 200 [("message", RStr "Email verified successfully.")],
       snd (verify Fixture.bob_verify Fixture.db0))
  ∧ users Fixture.db0 !! "u2" = Some Fixture.bob
  ∧ Fixture.bcrypt_compare "old-secret-2" (password Fixture.bob) = true
  ∧ login Fixture.cfg Fixture.bcrypt_compare Fixture.clock
      {| cr_email := Some "bob@iti.eg"; cr_password := Some "old-secret-2" |} Fixture.db0
    = (Next (AppError "Must verify email before logging in." 403), Fixture.db0)
  ∧ login Fixture.cfg Fixture.bcrypt_compare Fixture.clock
      {| cr_email := Some "bob@iti.eg"; cr_password := Some "old-secret-2" |}
      (snd (verify Fixture.bob_verify Fixture.db0))
    = (Json 200 (token_pair Fixture.cfg Fixture.clock (set_emailVerified true Fixture.bob)),
       snd (verify Fixture.bob_verify Fixture.db0)).
Proof.
  assert (verify Fixture.bob_verify Fixture.db0
          = (Json 200 [("message", RStr "Email verified successfully.")],
             snd (verify Fixture.bob_verify Fixture.db0))) as H
    by (vm_compute; reflexivity).
  assert (users Fixture.db0 !! "u2" = Some Fixture.bob) as Hu by (vm_compute; reflexivity).
  assert (Fixture.bcrypt_compare "old-secret-2" (password Fixture.bob) = true) as Hcmp
    by (vm_compute; reflexivity).
  split; [exact sample_unique_emails|]. split; [exact H|].
  split; [exact Hu|]. split; [exact Hcmp|].
  exact (verify_enables_login Fixture.cfg Fixture.bcrypt_compare Fixture.clock
           Fixture.bob_verify Fixture.db0 _ _ "u2" Fixture.bob "old-secret-2"
           sample_unique_emails H eq_refl Hu eq_refl eq_refl eq_refl Hcmp).
Defined.

Lemma verification_token_resets_password_witness :
  verify Fixture.bob_verify Fixture.db0
  = (Json 200 [("message", RStr "Email verified successfully.")],
     snd (verify Fixture.bob_verify Fixture.db0))
  ∧ (8 ≤ Z.of_nat (String.length "new-secret-22") ≤ 25)%Z
  ∧ fst (resetPassword Fixture.bcrypt_hash Fixture.bob_reset
           (snd (verify Fixture.bob_verify Fixture.db0)))
    = Json 200 [("message", RStr "Password reset successfully.")].
Proof.
  assert (verify Fixture.bob_verify Fixture.db0
          = (Json 200 [("message", RStr "Email verified successfully.")],
             snd (verify Fixture.bob_verify Fixture.db0))) as H
    by (vm_compute; reflexivity).
  assert (8 ≤ Z.of_nat (String.length "new-secret-22") ≤ 25)%Z as Hlen by (cbn; lia).
  split; [exact H|]. split; [exact Hlen|].
  exact (proj1 (verification_token_resets_password Fixture.bcrypt_hash Fixture.bob_verify
                  Fixture.db0 _ _ "u2" "t2" "new-secret-22" H eq_refl eq_refl Hlen)).
Defined.

Lemma reset_token_no_longer_verifies_witness :
  tokens_keyed Fixture.db0
  ∧ resetPassword Fixture.bcrypt_hash Fixture.bob_reset Fixture.db0
    = (Fixture.reset_ok, snd (resetPassword Fixture.bcrypt_hash Fixture.bob_reset Fixture.db0))
  ∧ verify Fixture.bob_verify (snd (resetPassword Fixture.bcrypt_hash Fixture.bob_reset Fixture.db0))
    = (Next (AppError "Invalid or expired verification link." 400),
       snd (resetPassword Fixture.bcrypt_hash Fixture.bob_reset Fixture.db0)).
Proof.
  assert (resetPassword Fixture.bcrypt_hash Fixture.bob_reset Fixture.db0
          = (Fixture.reset_ok,
             snd (resetPassword Fixture.bcrypt_hash Fixture.bob_reset Fixture.db0))) as H
    by (vm_compute; reflexivity).
  split; [exact sample_tokens_keyed|]. split; [exact H|].
  exact (reset_token_no_longer_verifies Fixture.bcrypt_hash Fixture.bob_reset Fixture.db0
           _ _ "u2" "t2" sample_tokens_keyed H eq_refl eq_refl).
Defined.

Lemma verify_and_reset_keep_store_ok_witness :
  store_ok Fixture.db0
  ∧ store_ok (snd (verify Fixture.bob_verify Fixture.db0))
  ∧ store_ok (snd (resetPassword Fixture.bcrypt_hash Fixture.alice_reset Fixture.db0)).
Proof.
  assert (store_ok Fixture.db0) as Hok.
  { split; [exact sample_ids_consistent|].
    split; [exact (unique_emails_distinct _ sample_unique_emails)|exact sample_tokens_keyed]. }
  split; [exact Hok|].
  exact (verify_and_reset_keep_store_ok Fixture.bcrypt_hash Fixture.bob_verify
           Fixture.alice_reset Fixture.db0 Hok).
Defined.

Lemma forgotPassword_not_found_iff_witness :
  nonempty "nobody@iti.eg" = true
  ∧ (fst (forgotPassword Mailer.sendResetPasswordEmail (Some "nobody@iti.eg") Fixture.db0)
     = Next (NotFoundError "No user found with that email address.")
     ↔ ∀ k u, users Fixture.db0 !! k = Some u → email u ≠ "nobody@iti.eg").
Proof.
  split; [reflexivity|].
  exact (proj1 (forgotPassword_not_found_iff Mailer.sendResetPasswordEmail
                  "nobody@iti.eg" Fixture.db0 eq_refl)).
Defined.

Lemma forgotPassword_mails_stored_user_witness :
  unique_emails Fixture.db0
  ∧ users Fixture.db0 !! "u2" = Some Fixture.bob
  ∧ forgotPassword Mailer.sendResetPasswordEmail (Some "bob@iti.eg") Fixture.db0
    = (Json 200 [("message", RStr "Password reset email sent successfully.")],
       snd (Mailer.sendResetPasswordEmail "u2" "bob@iti.eg" Fixture.db0)).
Proof.
  assert (users Fixture.db0 !! "u2" = Some Fixture.bob) as Hu by (vm_compute; reflexivity).
  split; [exact sample_unique_emails|]. split; [exact Hu|].
  exact (forgotPassword_mails_stored_user Mailer.sendResetPasswordEmail Fixture.db0
           "u2" Fixture.bob sample_unique_emails Hu eq_refl).
Defined.

Lemma register_create_rejected_witness :
  password_out_of_range (strip_overrides Fixture.signup) = Normal false
  ∧ Mailer.User_create_duplicate (strip_overrides Fixture.signup) Fixture.db0
    = (Rejected (CodedError 11000 "E11000 duplicate key error"), Fixture.db0)
  ∧ snd (register Fixture.cfg Mailer.User_create_duplicate Fixture.sendVerifyEmail
           Fixture.clock Fixture.signup Fixture.db0) = Fixture.db0
  ∧ reply_status (fst (register Fixture.cfg Mailer.User_create_duplicate Fixture.sendVerifyEmail
                         Fixture.clock Fixture.signup Fixture.db0)) = Some 409%Z.
Proof.
  assert (password_out_of_range (strip_overrides Fixture.signup) = Normal false) as Hpw
    by (vm_compute; reflexivity).
  split; [exact Hpw|]. split; [reflexivity|].
  exact (register_create_rejected Fixture.cfg Mailer.User_create_duplicate
           Fixture.sendVerifyEmail Fixture.clock Fixture.signup Fixture.db0 _ _ Hpw eq_refl).
Defined.

Lemma update_then_get_witness :
  AttendeeService.updateAttendeeApprovalStatus "a2" true Fixture.db0
  = (Some {| doc := AttendeeService.set_isApproved true Fixture.a2;
             user := Some (Some Fixture.bob);
             event := Some (Some {| ev_isActive := false; endDate := Some 2000000%Z |}) |},
     snd (AttendeeService.updateAttendeeApprovalStatus "a2" true Fixture.db0))
  ∧ AttendeeService.getAttendeeById "a2"
      (snd (AttendeeService.updateAttendeeApprovalStatus "a2" true Fixture.db0))
    = Some {| doc := AttendeeService.set_isApproved true Fixture.a2;
              user := Some (Some Fixture.bob);
              event := Some (Some {| ev_isActive := false; endDate := Some 2000000%Z |}) |}.
Proof.
  assert (AttendeeService.updateAttendeeApprovalStatus "a2" true Fixture.db0
          = (Some {| doc := AttendeeService.set_isApproved true Fixture.a2;
                     user := Some (Some Fixture.bob);
                     event := Some (Some {| ev_isActive := false;
                                            endDate := Some 2000000%Z |}) |},
             snd (AttendeeService.updateAttendeeApprovalStatus "a2" true Fixture.db0))) as H
    by (vm_compute; reflexivity).
  split; [exact H|].
  exact (proj1 (update_then_get "a2" true Fixture.db0 _ _ H)).
Defined.

Lemma delete_then_get_witness :
  attendee_ids_distinct Fixture.db0
  ∧ AttendeeService.deleteAttendeeById "a1" Fixture.db0
    = (Some (unpopulated Fixture.a1),
       snd (AttendeeService.deleteAttendeeById "a1" Fixture.db0))
  ∧ AttendeeService.getAttendeeById "a1"
      (snd (AttendeeService.deleteAttendeeById "a1" Fixture.db0)) = None.
Proof.
  assert (attendee_ids_distinct Fixture.db0) as Hd.
  { unfold attendee_ids_distinct. apply (bool_decide_unpack _). vm_compute. reflexivity. }
  assert (AttendeeService.deleteAttendeeById "a1" Fixture.db0
          = (Some (unpopulated Fixture.a1),
             snd (AttendeeService.deleteAttendeeById "a1" Fixture.db0))) as H
    by (vm_compute; reflexivity).
  split; [exact Hd|]. split; [exact H|].
  exact (proj1 (proj1 (delete_then_get "a1" Fixture.db0 Hd) _ _ H)).
Defined.



Lemma every_route_is_admin_gated_witness :
  Routes.dispatch Routes.DELETE ["a1"]
  = Some (Routes.mkRoute Routes.DELETE [Routes.Param "attendeeId"]
            [Routes.authenticateUser; Routes.isAdmin] Routes.deleteAttendee)
  ∧ Routes.middlewares
      (Routes.mkRoute Routes.DELETE [Routes.Param "attendeeId"]
         [Routes.authenticateUser; Routes.isAdmin] Routes.deleteAttendee)
    = [Routes.authenticateUser; Routes.isAdmin].
Proof.
  assert (Routes.dispatch Routes.DELETE ["a1"]
          = Some (Routes.mkRoute Routes.DELETE [Routes.Param "attendeeId"]
                    [Routes.authenticateUser; Routes.isAdmin] Routes.deleteAttendee)) as H
    by reflexivity.
  split; [exact H|].
  exact (every_route_is_admin_gated Routes.DELETE ["a1"] _ H).
Defined.
